(** * The voice assistant's tool registry and conversation orchestrator

  A shallow embedding of [tools.py] (the [ToolBox] class, [TOOL_SCHEMAS]
  and [get_tool_function]) and of [agent.py] (the [VoiceAgent] class with
  [add_message], [process_user_input], [process_user_input_streaming],
  [reset_conversation], [get_conversation_history] and
  [set_system_prompt]), followed by the
  properties of the orchestration loop.

  Python objects are mutated in place; here the agent is a record that is
  threaded through a state-and-exception monad.  The language-model
  backend, [json.loads] and the interpreter services the tools read (clock,
  platform, [eval]) are collaborators of the program: they enter as
  functions that return a value or raise. *)

From Stdlib Require Import List String Ascii ZArith Bool Lia DecimalString.
Import ListNotations.
Local Open Scope string_scope.
Local Open Scope Z_scope.

Set Implicit Arguments.

(* ===================================================================== *)
(** ** Python values, exceptions and outcomes *)
(* ===================================================================== *)

Module Py.

(** A raised exception: its class name and [str(e)].  Python separates the
    classes below [Exception] from those that derive from [BaseException]
    alone ([KeyboardInterrupt], [SystemExit], [asyncio.CancelledError]); an
    [except Exception] clause handles only the former. *)
Inductive exn : Type :=
| Exception (cls msg : string)
| BaseException (cls msg : string).

Definition str_exn (e : exn) : string :=
  match e with
  | Exception _ m => m
  | BaseException _ m => m
  end.

Definition is_Exception (e : exn) : bool :=
  match e with
  | Exception _ _ => true
  | BaseException _ _ => false
  end.

Definition TypeError (msg : string) : exn := Exception "TypeError" msg.
Definition IndexError (msg : string) : exn := Exception "IndexError" msg.
Definition AttributeError (msg : string) : exn := Exception "AttributeError" msg.
Definition ValueError (msg : string) : exn := Exception "ValueError" msg.
Definition JSONDecodeError (msg : string) : exn := Exception "JSONDecodeError" msg.

(** What evaluating an expression gives: a value, or a raised exception. *)
Inductive outcome (A : Type) : Type :=
| Ok (a : A)
| Raise (e : exn).
Arguments Ok {A} a.
Arguments Raise {A} e.

Definition obind {A B} (o : outcome A) (k : A -> outcome B) : outcome B :=
  match o with
  | Ok a => k a
  | Raise e => Raise e
  end.

(** The values tools exchange with the orchestrator: what [json.loads]
    builds, plus opaque floats (kept as their [repr]) and objects of any
    other type, which [json.dumps] refuses. *)
#[warnings="-register-all"]
Inductive pyval : Type :=
| PNone
| PBool (b : bool)
| PInt (z : Z)
| PFloat (repr : string)
| PStr (s : string)
| PList (l : list pyval)
| PDict (d : list (string * pyval))
| PObject (type_name : string).

Definition type_name (v : pyval) : string :=
  match v with
  | PNone => "NoneType"
  | PBool _ => "bool"
  | PInt _ => "int"
  | PFloat _ => "float"
  | PStr _ => "str"
  | PList _ => "list"
  | PDict _ => "dict"
  | PObject t => t
  end.

(** [d[k]] on an insertion-ordered dict. *)
Fixpoint dict_get (k : string) (d : list (string * pyval)) : option pyval :=
  match d with
  | [] => None
  | (k', v) :: rest => if String.eqb k k' then Some v else dict_get k rest
  end.

(** [d[k] = v]: an existing key keeps its position. *)
Fixpoint dict_set (k : string) (v : pyval) (d : list (string * pyval))
  : list (string * pyval) :=
  match d with
  | [] => [(k, v)]
  | (k', v') :: rest =>
      if String.eqb k k' then (k', v) :: rest else (k', v') :: dict_set k v rest
  end.

(** [x or default] on an optional string: [None] and the empty string are falsy. *)
Definition str_or (x : option string) (default : string) : string :=
  match x with
  | Some EmptyString => default
  | Some s => s
  | None => default
  end.

(** Truthiness of an optional string ([if name:]). *)
Definition truthy_str (x : option string) : bool :=
  match x with
  | Some EmptyString => false
  | Some _ => true
  | None => false
  end.

(** Truthiness of an optional list: [None] and [[]] are falsy. *)
Definition truthy_list {A} (x : option (list A)) : bool :=
  match x with
  | Some (_ :: _) => true
  | _ => false
  end.

(** [l[start:]].  A negative [start] counts from the end and is clamped at
    the front; [-0] is [0], so [l[-0:]] is the whole list. *)
Definition slice_from {A} (start : Z) (l : list A) : list A :=
  let n := Z.of_nat (List.length l) in
  let s := if start <? 0 then Z.max 0 (n + start) else Z.min start n in
  skipn (Z.to_nat s) l.

(** [l[0]]. *)
Definition index0 {A} (l : list A) : outcome A :=
  match l with
  | x :: _ => Ok x
  | [] => Raise (IndexError "list index out of range")
  end.

(** [try: body / except Exception as e: handler(e)] on a pure expression. *)
Definition otry {A} (body : outcome A) (handler : exn -> outcome A) : outcome A :=
  match body with
  | Ok a => Ok a
  | Raise e => if is_Exception e then handler e else Raise e
  end.

(** What an attribute lookup can return: a Python function, with the module
    and the qualified name CPython prints for it; a string, which is not
    callable; or any other object, given by its [str()] and by what calling
    it with keyword arguments does.  The first argument of a body is the
    number of tool invocations made before this one: the interpreter services
    a body reads (the clock) may answer differently at each invocation. *)
Inductive pyobject : Type :=
| PyFunction (module qualname : string)
             (body : nat -> list (string * pyval) -> outcome pyval)
| PyStr (s : string)
| PyOther (str : string) (call : nat -> list (string * pyval) -> outcome pyval).

(** [callee( **function_args )]: the argument after the two stars must be a
    mapping, and the callee must be callable.  The wording of the two
    [TypeError]s is CPython's. *)
Definition call_kwargs (callee : pyobject) (tick : nat) (function_args : pyval)
  : outcome pyval :=
  match function_args with
  | PDict kw =>
      match callee with
      | PyFunction _ _ body => body tick kw
      | PyStr _ => Raise (TypeError "'str' object is not callable")
      | PyOther _ call => call tick kw
      end
  | other =>
      let who :=
        match callee with
        | PyFunction module qualname _ => module ++ "." ++ qualname ++ "()"
        | PyStr s => s
        | PyOther str _ => str
        end in
      Raise (TypeError (who ++ " argument after ** must be a mapping, not "
                        ++ type_name other))
  end.

(** [v == s] for a string literal [s]: only an equal string compares equal. *)
Definition eq_str (v : pyval) (s : string) : bool :=
  match v with
  | PStr s' => String.eqb s' s
  | _ => false
  end.

Definition nl : string := String (ascii_of_nat 10) EmptyString.

Definition str_of_Z (z : Z) : string := NilZero.string_of_int (Z.to_int z).
Definition str_of_nat (n : nat) : string := str_of_Z (Z.of_nat n).

End Py.
Export Py.

(* ===================================================================== *)
(** ** The [json] module: [dumps] on the values above *)
(* ===================================================================== *)

Module Json.

Definition dquote : ascii := ascii_of_nat 34.

Definition hex_digit (n : nat) : ascii :=
  nth n (list_ascii_of_string "0123456789abcdef") "0"%char.

(** One character of a string literal under [ensure_ascii=True]: printable
    ASCII passes, the quote, the backslash and five control characters get
    a short escape, everything else is written [\u00xx].  A character of
    the model is a code point below 256. *)
Definition escape_char (c : ascii) : string :=
  let n := nat_of_ascii c in
  if Nat.eqb n 34 then String "\" (String dquote EmptyString)
  else if Nat.eqb n 92 then String "\" (String "\" EmptyString)
  else if Nat.eqb n 10 then String "\" "n"
  else if Nat.eqb n 13 then String "\" "r"
  else if Nat.eqb n 9 then String "\" "t"
  else if Nat.eqb n 8 then String "\" "b"
  else if Nat.eqb n 12 then String "\" "f"
  else if (Nat.leb 32 n && Nat.leb n 126)%bool then String c EmptyString
  else String "\" (String "u" (String "0" (String "0"
         (String (hex_digit (n / 16)) (String (hex_digit (n mod 16)) EmptyString))))).

Fixpoint escape (s : string) : string :=
  match s with
  | EmptyString => EmptyString
  | String c rest => escape_char c ++ escape rest
  end.

Definition quote : string := String dquote EmptyString.

Definition encode_str (s : string) : string := quote ++ escape s ++ quote.

(** [", ".join(items)]. *)
Fixpoint join (sep : string) (items : list string) : string :=
  match items with
  | [] => EmptyString
  | [x] => x
  | x :: rest => x ++ sep ++ join sep rest
  end.

(** [json.dumps(v)] with the default separators. *)
Fixpoint dumps (v : pyval) : outcome string :=
  match v with
  | PNone => Ok "null"
  | PBool true => Ok "true"
  | PBool false => Ok "false"
  | PInt z => Ok (str_of_Z z)
  | PFloat r => Ok r
  | PStr s => Ok (encode_str s)
  | PList l =>
      obind
        ((fix items (l : list pyval) : outcome (list string) :=
            match l with
            | [] => Ok []
            | x :: rest =>
                obind (dumps x) (fun sx =>
                obind (items rest) (fun sr => Ok (sx :: sr)))
            end) l)
        (fun ss => Ok ("[" ++ join ", " ss ++ "]"))
  | PDict d =>
      obind
        ((fix items (d : list (string * pyval)) : outcome (list string) :=
            match d with
            | [] => Ok []
            | (k, x) :: rest =>
                obind (dumps x) (fun sx =>
                obind (items rest) (fun sr =>
                  Ok ((encode_str k ++ ": " ++ sx) :: sr)))
            end) d)
        (fun ss => Ok ("{" ++ join ", " ss ++ "}"))
  | PObject t =>
      Raise (TypeError ("Object of type " ++ t ++ " is not JSON serializable"))
  end.

(** *** [json.loads]

    A recursive-descent reader for JSON text: objects, arrays, strings with
    their escapes, integers, and the literals.  A number with a fraction or an
    exponent becomes an opaque float that keeps its text.  [None] stands for
    a [JSONDecodeError]; an escape for a code point above 255 is outside the
    alphabet of the model and is refused as well. *)

Definition is_ws (c : ascii) : bool :=
  let n := nat_of_ascii c in
  (Nat.eqb n 32 || Nat.eqb n 9 || Nat.eqb n 10 || Nat.eqb n 13)%bool.

Fixpoint skip_ws (s : string) : string :=
  match s with
  | String c rest => if is_ws c then skip_ws rest else s
  | EmptyString => s
  end.

Definition is_digit (c : ascii) : bool :=
  let n := nat_of_ascii c in (Nat.leb 48 n && Nat.leb n 57)%bool.

(** The longest prefix of decimal digits, and what follows it. *)
Fixpoint span_digits (s : string) : string * string :=
  match s with
  | String c rest =>
      if is_digit c
      then let (d, r) := span_digits rest in (String c d, r)
      else (EmptyString, s)
  | EmptyString => (EmptyString, s)
  end.

Fixpoint digits_value (acc : Z) (s : string) : Z :=
  match s with
  | String c rest => digits_value (10 * acc + Z.of_nat (nat_of_ascii c - 48)) rest
  | EmptyString => acc
  end.

Fixpoint strip_prefix (lit s : string) : option string :=
  match lit, s with
  | EmptyString, _ => Some s
  | String a lit', String b s' => if Ascii.eqb a b then strip_prefix lit' s' else None
  | String _ _, EmptyString => None
  end.

Definition hex_value (c : ascii) : option nat :=
  let n := nat_of_ascii c in
  if (Nat.leb 48 n && Nat.leb n 57)%bool then Some (n - 48)%nat
  else if (Nat.leb 97 n && Nat.leb n 102)%bool then Some (n - 87)%nat
  else if (Nat.leb 65 n && Nat.leb n 70)%bool then Some (n - 55)%nat
  else None.

Definition hex4 (a b c d : ascii) : option nat :=
  match hex_value a, hex_value b, hex_value c, hex_value d with
  | Some x, Some y, Some z, Some w => Some (((x * 16 + y) * 16 + z) * 16 + w)%nat
  | _, _, _, _ => None
  end.

Definition cons_char (c : ascii) (r : option (string * string))
  : option (string * string) :=
  match r with
  | Some (body, rest) => Some (String c body, rest)
  | None => None
  end.

(** The inside of a string literal, after its opening quote. *)
Fixpoint string_body (s : string) : option (string * string) :=
  match s with
  | EmptyString => None
  | String c rest =>
      if Ascii.eqb c dquote then Some (EmptyString, rest)
      else if Ascii.eqb c "\" then
        match rest with
        | String e rest' =>
            if Ascii.eqb e dquote then cons_char dquote (string_body rest')
            else if Ascii.eqb e "\" then cons_char "\" (string_body rest')
            else if Ascii.eqb e "/" then cons_char "/" (string_body rest')
            else if Ascii.eqb e "b" then cons_char (ascii_of_nat 8) (string_body rest')
            else if Ascii.eqb e "f" then cons_char (ascii_of_nat 12) (string_body rest')
            else if Ascii.eqb e "n" then cons_char (ascii_of_nat 10) (string_body rest')
            else if Ascii.eqb e "r" then cons_char (ascii_of_nat 13) (string_body rest')
            else if Ascii.eqb e "t" then cons_char (ascii_of_nat 9) (string_body rest')
            else if Ascii.eqb e "u" then
              match rest' with
              | String h1 (String h2 (String h3 (String h4 rest''))) =>
                  match hex4 h1 h2 h3 h4 with
                  | Some n =>
                      if Nat.ltb n 256
                      then cons_char (ascii_of_nat n) (string_body rest'')
                      else None
                  | None => None
                  end
              | _ => None
              end
            else None
        | EmptyString => None
        end
      else if Nat.ltb (nat_of_ascii c) 32 then None
      else cons_char c (string_body rest)
  end.

(** A number: an optional minus, an integer part without a leading zero
    (or a lone zero), an optional fraction, an optional exponent. *)
Definition number (s : string) : option (pyval * string) :=
  let (sign, s1) :=
    match s with
    | String "-" r => ("-", r)
    | _ => (EmptyString, s)
    end in
  let (int_part, s2) :=
    match s1 with
    | String "0" r => ("0", r)
    | _ => span_digits s1
    end in
  match int_part with
  | EmptyString => None
  | _ =>
      let (frac, s3) :=
        match s2 with
        | String "." r =>
            let (d, r') := span_digits r in
            match d with
            | EmptyString => (EmptyString, s2)
            | _ => ("." ++ d, r')
            end
        | _ => (EmptyString, s2)
        end in
      let (expo, s4) :=
        match s3 with
        | String e r =>
            if (Ascii.eqb e "e" || Ascii.eqb e "E")%bool then
              let (sg, r1) :=
                match r with
                | String "-" r1 => ("-", r1)
                | String "+" r1 => ("+", r1)
                | _ => (EmptyString, r)
                end in
              let (d, r2) := span_digits r1 in
              match d with
              | EmptyString => (EmptyString, s3)
              | _ => (String e (sg ++ d), r2)
              end
            else (EmptyString, s3)
        | EmptyString => (EmptyString, s3)
        end in
      match frac, expo with
      | EmptyString, EmptyString =>
          let n := digits_value 0 int_part in
          Some (PInt (match sign with EmptyString => n | _ => - n end), s4)
      | _, _ => Some (PFloat (sign ++ int_part ++ frac ++ expo), s4)
      end
  end.

Definition literal (s : string) : option (pyval * string) :=
  match strip_prefix "null" s with
  | Some r => Some (PNone, r)
  | None =>
  match strip_prefix "true" s with
  | Some r => Some (PBool true, r)
  | None =>
  match strip_prefix "false" s with
  | Some r => Some (PBool false, r)
  | None =>
  match strip_prefix "NaN" s with
  | Some r => Some (PFloat "NaN", r)
  | None =>
  match strip_prefix "Infinity" s with
  | Some r => Some (PFloat "Infinity", r)
  | None =>
  match strip_prefix "-Infinity" s with
  | Some r => Some (PFloat "-Infinity", r)
  | None => number s
  end end end end end end.

(** A value; the elements of an array after its bracket or a comma; the
    members of an object after its brace or a comma.  [fuel] bounds the number
    of nested and successive calls. *)
Fixpoint value (fuel : nat) (s : string) : option (pyval * string) :=
  match fuel with
  | O => None
  | S fuel' =>
      match s with
      | String c rest =>
          if Ascii.eqb c dquote then
            match string_body rest with
            | Some (str, r) => Some (PStr str, r)
            | None => None
            end
          else if Ascii.eqb c "[" then
            match skip_ws rest with
            | String "]" r => Some (PList [], r)
            | r =>
                match elements fuel' r with
                | Some (l, r') => Some (PList l, r')
                | None => None
                end
            end
          else if Ascii.eqb c "{" then
            match skip_ws rest with
            | String "}" r => Some (PDict [], r)
            | r =>
                match members fuel' [] r with
                | Some (d, r') => Some (PDict d, r')
                | None => None
                end
            end
          else literal s
      | EmptyString => None
      end
  end

with elements (fuel : nat) (s : string) : option (list pyval * string) :=
  match fuel with
  | O => None
  | S fuel' =>
      match value fuel' s with
      | Some (v, r) =>
          match skip_ws r with
          | String "," r' =>
              match elements fuel' (skip_ws r') with
              | Some (l, r'') => Some (v :: l, r'')
              | None => None
              end
          | String "]" r' => Some ([v], r')
          | _ => None
          end
      | None => None
      end
  end

with members (fuel : nat) (acc : list (string * pyval)) (s : string)
  : option (list (string * pyval) * string) :=
  match fuel with
  | O => None
  | S fuel' =>
      match s with
      | String c rest =>
          if Ascii.eqb c dquote then
            match string_body rest with
            | Some (key, r) =>
                match skip_ws r with
                | String ":" r1 =>
                    match value fuel' (skip_ws r1) with
                    | Some (v, r2) =>
                        let acc' := dict_set key v acc in
                        match skip_ws r2 with
                        | String "," r3 => members fuel' acc' (skip_ws r3)
                        | String "}" r3 => Some (acc', r3)
                        | _ => None
                        end
                    | None => None
                    end
                | _ => None
                end
            | None => None
            end
          else None
      | EmptyString => None
      end
  end.

(** [json.loads(s)]: one value between optional whitespace, nothing after
    it.  The wording of the error, which only ever reaches the log, is not
    reproduced. *)
Definition loads (s : string) : outcome pyval :=
  match value (2 * String.length s + 2) (skip_ws s) with
  | Some (v, rest) =>
      match skip_ws rest with
      | EmptyString => Ok v
      | _ => Raise (JSONDecodeError "Extra data")
      end
  | None => Raise (JSONDecodeError "Expecting value")
  end.

End Json.


(* ===================================================================== *)
(** ** tools.py *)
(* ===================================================================== *)

Module Tools.

(** [datetime.now()] as the three [strftime] renderings the tool reads. *)
Record datetime : Type := {
  strftime_HMS : string;      (* %H:%M:%S *)
  strftime_Ymd : string;      (* %Y-%m-%d *)
  strftime_A : string         (* %A *)
}.

(** The interpreter services behind the tool bodies. *)
Record Runtime : Type := {
  (** [datetime.now()] at a given tool invocation *)
  now : nat -> datetime;
  (** the [platform] module *)
  platform_system : string;
  platform_release : string;
  platform_version : string;
  platform_machine : string;
  platform_processor : string;
  platform_python_version : string;
  (** [eval(expression, {"__builtins__": {}}, allowed_names)] *)
  eval_restricted : nat -> pyval -> outcome pyval;
  (** how an f-string renders a value that is not a string *)
  format_value : pyval -> string;
  (** the length of [range(min(v, 3))] for a [v] that is no [int] *)
  range_min3 : pyval -> outcome nat;
  (** the attributes [ToolBox] inherits from [object] and from its
      metaclass [type] *)
  inherited : string -> option pyobject
}.

(** *** Binding keyword arguments to a signature *)

Definition check_keywords (qualname : string) (params : list string)
           (kw : list (string * pyval)) : outcome unit :=
  match find (fun p => negb (existsb (String.eqb (fst p)) params)) kw with
  | Some (k, _) =>
      Raise (TypeError (qualname ++ "() got an unexpected keyword argument '" ++ k ++ "'"))
  | None => Ok tt
  end.

Definition keyword (qualname p : string) (default : option pyval)
           (kw : list (string * pyval)) : outcome pyval :=
  match dict_get p kw, default with
  | Some v, _ => Ok v
  | None, Some d => Ok d
  | None, None =>
      Raise (TypeError (qualname ++ "() missing 1 required positional argument: '"
                        ++ p ++ "'"))
  end.

(** *** class ToolBox *)

Section ToolBox.

Variable rt : Runtime.

Definition ToolBox_doc : string :=
  nl ++ "    Static methods that the LLM can call through OpenAI's function calling."
  ++ nl ++ "    Each method here should have a corresponding schema in TOOL_SCHEMAS."
  ++ nl ++ "    ".

Definition get_current_time (tick : nat) (timezone : pyval) : pyval :=
  let now := now rt tick in
  PDict [ ("status", PStr "success");
          ("time", PStr (strftime_HMS now));
          ("date", PStr (strftime_Ymd now));
          ("day_of_week", PStr (strftime_A now));
          ("timezone", timezone) ].

Definition get_current_weather (location unit : pyval) : pyval :=
  let dummy_weather :=
    PDict [ ("status", PStr "success");
            ("location", location);
            ("temperature", PInt (if eq_str unit "celsius" then 22 else 72));
            ("unit", unit);
            ("condition", PStr "Partly Cloudy");
            ("humidity", PInt 65);
            ("wind_speed", PInt 15);
            ("note", PStr "This is dummy data. Integrate a real weather API for production use.") ] in
  dummy_weather.

(** [f"{v}"] *)
Definition fmt (v : pyval) : string :=
  match v with
  | PStr s => s
  | _ => format_value rt v
  end.

(** The number of turns of [for i in range(min(num_results, 3))].  A [bool]
    is an [int]: [True] is 1 and [False] is 0. *)
Definition range_min (num_results : pyval) : outcome nat :=
  match num_results with
  | PInt n => Ok (Z.to_nat (Z.min n 3))
  | PBool b => Ok (if b then 1%nat else 0%nat)
  | v => range_min3 rt v
  end.

Definition search_result (query : pyval) (i : nat) : pyval :=
  PDict [ ("title", PStr ("Result " ++ str_of_nat (i + 1) ++ " for '" ++ fmt query ++ "'"));
          ("snippet", PStr ("This is a dummy search result snippet for " ++ fmt query));
          ("url", PStr ("https://example.com/result" ++ str_of_nat (i + 1))) ].

Definition search_web (query num_results : pyval) : outcome pyval :=
  obind (range_min num_results) (fun n =>
  Ok (PDict [ ("status", PStr "success");
              ("query", query);
              ("results", PList (map (search_result query) (seq 0 n)));
              ("note", PStr "This is dummy data. Integrate a real search API for production use.") ])).

Definition get_system_info : pyval :=
  PDict [ ("status", PStr "success");
          ("system", PStr (platform_system rt));
          ("release", PStr (platform_release rt));
          ("version", PStr (platform_version rt));
          ("machine", PStr (platform_machine rt));
          ("processor", PStr (platform_processor rt));
          ("python_version", PStr (platform_python_version rt)) ].

Definition execute_system_command (command : pyval) : pyval :=
  (* SECURITY: This is intentionally disabled for safety *)
  PDict [ ("status", PStr "error");
          ("message", PStr "System command execution is disabled for security reasons.");
          ("command", command);
          ("note", PStr "To enable this, modify the execute_system_command function and implement proper security controls.") ].

Definition calculate (tick : nat) (expression : pyval) : outcome pyval :=
  otry
    (obind (eval_restricted rt tick expression) (fun result =>
     Ok (PDict [ ("status", PStr "success");
                 ("expression", expression);
                 ("result", result) ])))
    (fun e =>
     Ok (PDict [ ("status", PStr "error");
                 ("expression", expression);
                 ("error", PStr (str_exn e)) ])).

(** The static methods as [getattr] hands them out: functions of keyword
    arguments, with the defaults of their signatures. *)
Definition get_current_time_fn : pyobject :=
  let q := "ToolBox.get_current_time" in
  PyFunction "tools" q (fun tick kw =>
    obind (check_keywords q ["timezone"] kw) (fun _ =>
    obind (keyword q "timezone" (Some (PStr "local")) kw) (fun timezone =>
    Ok (get_current_time tick timezone)))).

Definition get_current_weather_fn : pyobject :=
  let q := "ToolBox.get_current_weather" in
  PyFunction "tools" q (fun _ kw =>
    obind (check_keywords q ["location"; "unit"] kw) (fun _ =>
    obind (keyword q "location" None kw) (fun location =>
    obind (keyword q "unit" (Some (PStr "celsius")) kw) (fun unit =>
    Ok (get_current_weather location unit))))).

Definition search_web_fn : pyobject :=
  let q := "ToolBox.search_web" in
  PyFunction "tools" q (fun _ kw =>
    obind (check_keywords q ["query"; "num_results"] kw) (fun _ =>
    obind (keyword q "query" None kw) (fun query =>
    obind (keyword q "num_results" (Some (PInt 3)) kw) (fun num_results =>
    search_web query num_results)))).

Definition get_system_info_fn : pyobject :=
  let q := "ToolBox.get_system_info" in
  PyFunction "tools" q (fun _ kw =>
    obind (check_keywords q [] kw) (fun _ => Ok get_system_info)).

Definition execute_system_command_fn : pyobject :=
  let q := "ToolBox.execute_system_command" in
  PyFunction "tools" q (fun _ kw =>
    obind (check_keywords q ["command"] kw) (fun _ =>
    obind (keyword q "command" None kw) (fun command =>
    Ok (execute_system_command command)))).

Definition calculate_fn : pyobject :=
  let q := "ToolBox.calculate" in
  PyFunction "tools" q (fun tick kw =>
    obind (check_keywords q ["expression"] kw) (fun _ =>
    obind (keyword q "expression" None kw) (fun expression =>
    calculate tick expression))).

(** The namespace of the class body: what the source binds in it.  The
    entries the interpreter adds to every class are among the inherited
    attributes. *)
Definition ToolBox : list (string * pyobject) :=
  [ ("__module__", PyStr "tools");
    ("__doc__", PyStr ToolBox_doc);
    ("get_current_time", get_current_time_fn);
    ("get_current_weather", get_current_weather_fn);
    ("search_web", search_web_fn);
    ("get_system_info", get_system_info_fn);
    ("execute_system_command", execute_system_command_fn);
    ("calculate", calculate_fn) ].

Fixpoint class_dict_get (name : string) (ns : list (string * pyobject)) : option pyobject :=
  match ns with
  | [] => None
  | (k, o) :: rest => if String.eqb name k then Some o else class_dict_get name rest
  end.

(** [getattr(ToolBox, name)]: the class body first, then what the class
    inherits; [AttributeError] when neither has the name. *)
Definition getattr_ToolBox (name : string) : outcome pyobject :=
  match class_dict_get name ToolBox with
  | Some o => Ok o
  | None =>
      match inherited rt name with
      | Some o => Ok o
      | None =>
          Raise (AttributeError ("type object 'ToolBox' has no attribute '" ++ name ++ "'"))
      end
  end.

Definition get_tool_function (function_name : string) : outcome pyobject :=
  getattr_ToolBox function_name.

End ToolBox.

(** *** TOOL_SCHEMAS *)

Record ParamSchema : Type := {
  param_name : string;
  param_type : string;
  param_enum : option (list string);
  param_description : string;
  param_minimum : option Z;
  param_maximum : option Z
}.

Record ToolSchema : Type := {
  schema_type : string;
  function_name : string;
  function_description : string;
  properties : list ParamSchema;
  required : list string
}.

Definition TOOL_SCHEMAS : list ToolSchema :=
  [ {| schema_type := "function";
       function_name := "get_current_time";
       function_description := "Get the current time and date. Use this when the user asks about the time or date.";
       properties :=
         [ {| param_name := "timezone"; param_type := "string";
              param_enum := Some ["local"];
              param_description := "The timezone (currently only 'local' is supported)";
              param_minimum := None; param_maximum := None |} ];
       required := [] |};
    {| schema_type := "function";
       function_name := "get_current_weather";
       function_description := "Get the current weather for a specific location. Use this when the user asks about weather conditions.";
       properties :=
         [ {| param_name := "location"; param_type := "string";
              param_enum := None;
              param_description := "The city or location name, e.g., 'New York', 'London', 'Tokyo'";
              param_minimum := None; param_maximum := None |};
           {| param_name := "unit"; param_type := "string";
              param_enum := Some ["celsius"; "fahrenheit"];
              param_description := "Temperature unit";
              param_minimum := None; param_maximum := None |} ];
       required := ["location"] |};
    {| schema_type := "function";
       function_name := "search_web";
       function_description := "Search the web for information. Use this when the user asks you to look up information you don't know.";
       properties :=
         [ {| param_name := "query"; param_type := "string";
              param_enum := None;
              param_description := "The search query";
              param_minimum := None; param_maximum := None |};
           {| param_name := "num_results"; param_type := "integer";
              param_enum := None;
              param_description := "Number of search results to return (1-5)";
              param_minimum := Some 1; param_maximum := Some 5 |} ];
       required := ["query"] |};
    {| schema_type := "function";
       function_name := "get_system_info";
       function_description := "Get information about the computer system. Use this when the user asks about system specifications or OS details.";
       properties := [];
       required := [] |};
    {| schema_type := "function";
       function_name := "calculate";
       function_description := "Perform mathematical calculations. Use this when the user asks to calculate or solve math problems.";
       properties :=
         [ {| param_name := "expression"; param_type := "string";
              param_enum := None;
              param_description := "Mathematical expression to evaluate, e.g., '2 + 2', '10 * 5', 'pow(2, 8)'";
              param_minimum := None; param_maximum := None |} ];
       required := ["expression"] |} ].

End Tools.

(* ===================================================================== *)
(** ** agent.py *)
(* ===================================================================== *)

Module Agent.

(** The calls to [logger] are left out: the log is written and never read,
    and formatting what is logged does not raise.  [await] is sequential
    composition: one turn runs to its end.  The streaming variant of the
    entry point follows this module. *)

(** A tool call as the backend returns it: [tc.id], [tc.type],
    [tc.function.name], [tc.function.arguments]. *)
Record ToolCall : Type := {
  tc_id : string;
  tc_type : string;
  tc_function_name : string;
  tc_function_arguments : string
}.

(** An entry of the conversation history.  [content] is always present and
    may be [None]; the other keys are present only when set. *)
Record Message : Type := {
  role : string;
  content : option string;
  name : option string;
  tool_call_id : option string;
  tool_calls : option (list ToolCall)
}.

(** [response.choices[0].message] and [response.choices[0].finish_reason]. *)
Record ChatCompletionMessage : Type := {
  message_content : option string;
  message_tool_calls : option (list ToolCall)
}.

Record Choice : Type := {
  message : ChatCompletionMessage;
  finish_reason : string
}.

Record ChatCompletion : Type := {
  choices : list Choice
}.

Record VoiceAgent : Type := {
  api_key : string;
  model : string;
  max_history : Z;
  system_prompt : string;
  conversation_history : list Message
}.

(** What the outside has seen of the agent: the [messages] of every request
    sent to the backend, oldest first, and the number of tool invocations
    made. *)
Record World : Type := {
  requests : list (list Message);
  tool_invocations : nat
}.

Definition State : Type := (VoiceAgent * World)%type.

(** A method body: it may change the agent, and it returns or raises.  The
    changes made before an exception stay. *)
Definition M (A : Type) : Type := State -> outcome A * State.

Definition ret {A} (a : A) : M A := fun st => (Ok a, st).

Definition bind {A B} (m : M A) (k : A -> M B) : M B :=
  fun st =>
    match m st with
    | (Ok a, st') => k a st'
    | (Raise e, st') => (Raise e, st')
    end.

Definition lift {A} (o : outcome A) : M A := fun st => (o, st).

Notation "x <- m ;; k" := (bind m (fun x => k))
  (at level 61, m at next level, right associativity).
Notation "m ;; k" := (bind m (fun _ => k))
  (at level 61, right associativity).

(** [try: body / except Exception as e: handler(e)] *)
Definition try_except {A} (body : M A) (handler : exn -> M A) : M A :=
  fun st =>
    match body st with
    | (Ok a, st') => (Ok a, st')
    | (Raise e, st') => if is_Exception e then handler e st' else (Raise e, st')
    end.

(** [for x in l: body(x)] *)
Fixpoint for_each {A} (l : list A) (body : A -> M unit) : M unit :=
  match l with
  | [] => ret tt
  | x :: rest => body x ;; for_each rest body
  end.

Definition set_history (a : VoiceAgent) (h : list Message) : VoiceAgent :=
  {| api_key := api_key a; model := model a; max_history := max_history a;
     system_prompt := system_prompt a; conversation_history := h |}.

(** [self.conversation_history.append(message)] *)
Definition append (message : Message) : M unit :=
  fun st =>
    let (a, w) := st in
    (Ok tt, (set_history a (conversation_history a ++ [message])%list, w)).

Definition system_message (prompt : string) : Message :=
  {| role := "system"; content := Some prompt; name := None;
     tool_call_id := None; tool_calls := None |}.

Definition default_model : string := "gpt-4o-mini".
Definition default_max_history : Z := 20.

Definition default_system_prompt : string :=
  "You are a helpful, friendly AI voice assistant. "
  ++ "You can have natural conversations and use available tools when needed. "
  ++ "Keep your responses concise and conversational since they will be spoken aloud. "
  ++ "When using tools, explain what you're doing in a natural way. "
  ++ "Today's date is January 7, 2026.".

(** [VoiceAgent.__init__]; [getenv] is the value of [OPENAI_API_KEY] in the
    environment. *)
Definition __init__ (api_key getenv : option string) (model : string)
           (system_prompt : option string) (max_history : Z) : outcome VoiceAgent :=
  let key := if truthy_str api_key then api_key else getenv in
  match truthy_str key, key with
  | true, Some k =>
      let prompt := str_or system_prompt default_system_prompt in
      Ok {| api_key := k; model := model; max_history := max_history;
            system_prompt := prompt;
            conversation_history := [system_message prompt] |}
  | _, _ =>
      Raise (ValueError "OpenAI API key not found. Set OPENAI_API_KEY environment variable.")
  end.

(** [add_message(role, content, name=None)] *)
Definition add_message (role content : string) (name : option string) : M unit :=
  fun st =>
    let (a, w) := st in
    let message :=
      {| role := role; content := Some content;
         name := if truthy_str name then name else None;
         tool_call_id := None; tool_calls := None |} in
    let history := (conversation_history a ++ [message])%list in
    (* Trim history if too long (keep system message) *)
    if Z.of_nat (List.length history) >? max_history a + 1 then
      match index0 history with
      | Ok first =>
          (Ok tt, (set_history a (first :: slice_from (- max_history a) history), w))
      | Raise e => (Raise e, (set_history a history, w))
      end
    else (Ok tt, (set_history a history, w)).

(** [reset_conversation()] *)
Definition reset_conversation : M unit :=
  fun st =>
    let (a, w) := st in
    (Ok tt, (set_history a [system_message (system_prompt a)], w)).

(** [get_conversation_history()] *)
Definition get_conversation_history : M (list Message) :=
  fun st => (Ok (conversation_history (fst st)), st).

(** [set_system_prompt(prompt)]: assigning to index 0 of an empty list
    raises. *)
Definition set_system_prompt (prompt : string) : M unit :=
  fun st =>
    let (a, w) := st in
    let a' := {| api_key := api_key a; model := model a; max_history := max_history a;
                 system_prompt := prompt;
                 conversation_history := conversation_history a |} in
    match conversation_history a with
    | _ :: rest => (Ok tt, (set_history a' (system_message prompt :: rest), w))
    | [] => (Raise (IndexError "list assignment index out of range"), (a', w))
    end.

Definition max_iterations : nat := 5.

Definition not_sure_response : string := "I'm not sure how to respond to that.".
Definition fallback : string :=
  "I apologize, but I encountered an issue processing your request.".
Definition error_response : string :=
  "I'm sorry, I encountered an error while processing your request.".
Definition timeout_response : string :=
  "I apologize, but I'm having trouble completing that request.".

(** How one turn of the loop body ends: [continue], or [return s]. *)
Inductive flow : Type :=
| Continue
| Return (s : string).

Definition assistant_tool_call_message (am : ChatCompletionMessage)
           (tcs : list ToolCall) : Message :=
  {| role := "assistant"; content := message_content am; name := None;
     tool_call_id := None; tool_calls := Some tcs |}.

Definition tool_message (tool_call : ToolCall) (result_str : string) : Message :=
  {| role := "tool"; content := Some result_str;
     name := Some (tc_function_name tool_call);
     tool_call_id := Some (tc_id tool_call); tool_calls := None |}.

Definition error_result (e : exn) : pyval :=
  PDict [ ("status", PStr "error"); ("error", PStr (str_exn e)) ].

Section Orchestrator.

(** [json.loads] *)
Variable json_loads : string -> outcome pyval.

(** [get_tool_function], imported from tools.py *)
Variable get_tool_function : string -> outcome pyobject.

(** [self.client.chat.completions.create(model=..., messages=...,
    tools=TOOL_SCHEMAS, tool_choice="auto")]: the answer to a request, given
    the number of requests made before it. *)
Variable chat_completions_create :
  nat -> string -> list Message -> outcome ChatCompletion.

Definition create_completion : M ChatCompletion :=
  fun st =>
    let (a, w) := st in
    (chat_completions_create (List.length (requests w)) (model a) (conversation_history a),
     (a, {| requests := (requests w ++ [conversation_history a])%list;
            tool_invocations := tool_invocations w |})).

(** [tool_function( **function_args )] *)
Definition invoke (tool_function : pyobject) (function_args : pyval) : M pyval :=
  fun st =>
    let (a, w) := st in
    (call_kwargs tool_function (tool_invocations w) function_args,
     (a, {| requests := requests w; tool_invocations := S (tool_invocations w) |})).

(** The body of [for tool_call in assistant_message.tool_calls]. *)
Definition execute_tool_call (tool_call : ToolCall) : M unit :=
  let function_name := tc_function_name tool_call in
  function_args <- lift (json_loads (tc_function_arguments tool_call)) ;;
  (* Execute the function *)
  result_str <-
    try_except
      (tool_function <- lift (get_tool_function function_name) ;;
       function_result <- invoke tool_function function_args ;;
       lift (Json.dumps function_result))
      (fun e => lift (Json.dumps (error_result e))) ;;
  (* Add tool result to conversation history *)
  append (tool_message tool_call result_str).

(** The [try] block of one turn of the loop. *)
Definition iteration_body : M flow :=
  (* Call OpenAI API with tools *)
  response <- create_completion ;;
  choice <- lift (index0 (choices response)) ;;
  let assistant_message := message choice in
  let finish_reason := finish_reason choice in
  (* Case 1: Model wants to call tool(s) *)
  if (String.eqb finish_reason "tool_calls"
      && truthy_list (message_tool_calls assistant_message))%bool then
    let tcs := match message_tool_calls assistant_message with
               | Some l => l
               | None => []
               end in
    (* Add assistant's tool call message to history *)
    append (assistant_tool_call_message assistant_message tcs) ;;
    (* Execute each tool call *)
    for_each tcs execute_tool_call ;;
    (* Continue loop to get assistant's final response *)
    ret Continue
  (* Case 2: Model provided a text response *)
  else if String.eqb finish_reason "stop" then
    let final_response := str_or (message_content assistant_message) not_sure_response in
    (* Add assistant response to history *)
    add_message "assistant" final_response None ;;
    ret (Return final_response)
  (* Case 3: Other finish reasons (length, content_filter, etc.) *)
  else
    add_message "assistant" fallback None ;;
    ret (Return fallback).

(** One turn of [while iteration < max_iterations]: the [try] block and its
    [except Exception] handler. *)
Definition iteration : M flow :=
  try_except iteration_body
    (fun e =>
       add_message "assistant" error_response None ;;
       ret (Return error_response)).

(** The [while] loop, by the number of turns left
    ([max_iterations - iteration]); [None] when the loop ends without a
    [return]. *)
Fixpoint agentic_loop (remaining : nat) : M (option string) :=
  match remaining with
  | O => ret None
  | S remaining' =>
      f <- iteration ;;
      match f with
      | Continue => agentic_loop remaining'
      | Return s => ret (Some s)
      end
  end.

Definition process_user_input (user_input : string) : M string :=
  (* Add user message *)
  add_message "user" user_input None ;;
  (* Agentic loop: Keep calling API until we get a final response *)
  r <- agentic_loop max_iterations ;;
  match r with
  | Some response => ret response
  | None =>
      (* Max iterations reached *)
      add_message "assistant" timeout_response None ;;
      ret timeout_response
  end.

End Orchestrator.

End Agent.

Import Agent.

(* ===================================================================== *)
(** ** agent.py: the streaming entry point *)
(* ===================================================================== *)

(** A chunk of a streamed completion, as far as the agent reads it:
    [chunk.choices[0].delta.content]. *)
Record ChoiceDelta : Type := {
  delta_content : option string
}.

Record ChunkChoice : Type := {
  delta : ChoiceDelta
}.

Record ChatCompletionChunk : Type := {
  chunk_choices : list ChunkChoice
}.

(** What iterating over a stream gives: its chunks in order, and then either
    the end of the stream or an exception raised by the iteration. *)
Record Stream : Type := {
  chunks : list ChatCompletionChunk;
  broken : option exn
}.

(** An asynchronous generator that is iterated to its end: the values it
    yields, in order, and how it finishes.  The changes it makes to the agent
    stay, as for a method. *)
Definition G (A : Type) : Type := State -> (list string * outcome A) * State.

Definition gret {A} (a : A) : G A := fun st => (([], Ok a), st).

Definition gbind {A B} (g : G A) (k : A -> G B) : G B :=
  fun st =>
    match g st with
    | ((ys, Ok a), st') =>
        match k a st' with
        | ((ys', r), st'') => (((ys ++ ys')%list, r), st'')
        end
    | ((ys, Raise e), st') => ((ys, Raise e), st')
    end.

(** A method call inside the generator. *)
Definition glift {A} (m : M A) : G A :=
  fun st => match m st with (r, st') => (([], r), st') end.

(** [yield s] *)
Definition yield (s : string) : G unit := fun st => (([s], Ok tt), st).

(** [try: body / except Exception as e: handler(e)] in a generator: what the
    body yielded before it raised has been handed out already. *)
Definition gtry {A} (body : G A) (handler : exn -> G A) : G A :=
  fun st =>
    match body st with
    | ((ys, Ok a), st') => ((ys, Ok a), st')
    | ((ys, Raise e), st') =>
        if is_Exception e then
          match handler e st' with
          | ((ys', r), st'') => (((ys ++ ys')%list, r), st'')
          end
        else ((ys, Raise e), st')
    end.

Definition streaming_error : string := "I'm sorry, I encountered an error.".

Section StreamingOrchestrator.

(** [self.client.chat.completions.create(..., stream=True)] *)
Variable chat_completions_create_stream :
  nat -> string -> list Message -> outcome Stream.

Definition create_stream : M Stream :=
  fun st =>
    let (a, w) := st in
    (chat_completions_create_stream (List.length (requests w)) (model a)
                                    (conversation_history a),
     (a, {| requests := (requests w ++ [conversation_history a])%list;
            tool_invocations := tool_invocations w |})).

(** The body of [async for chunk in stream], over the chunks the stream
    delivers; the result is [full_response]. *)
Fixpoint async_for (cs : list ChatCompletionChunk) (full_response : string) : G string :=
  match cs with
  | [] => gret full_response
  | chunk :: rest =>
      gbind (glift (lift (index0 (chunk_choices chunk)))) (fun choice =>
      if truthy_str (delta_content (delta choice)) then
        let content := str_or (delta_content (delta choice)) EmptyString in
        gbind (yield content) (fun _ =>
        async_for rest (full_response ++ content))
      else async_for rest full_response)
  end.

Definition process_user_input_streaming (user_input : string) : G unit :=
  (* Add user message *)
  gbind (glift (add_message "user" user_input None)) (fun _ =>
  gtry
    ((* Call OpenAI API with streaming *)
     gbind (glift create_stream) (fun stream =>
     gbind (async_for (chunks stream) EmptyString) (fun full_response =>
     gbind (match broken stream with
            | Some e => glift (lift (Raise e))
            | None => gret tt
            end) (fun _ =>
     (* Add complete response to history *)
     glift (add_message "assistant" full_response None)))))
    (fun e => yield streaming_error)).

End StreamingOrchestrator.

(* ===================================================================== *)
(** ** What [add_message] computes *)
(* ===================================================================== *)

(** What [add_message] leaves: the message appended, and, above the bound,
    the first entry followed by the slice. *)
Definition trimmed (max_history : Z) (h : list Message) : list Message :=
  if Z.of_nat (List.length h) >? max_history + 1 then
    match h with
    | first :: _ => first :: slice_from (- max_history) h
    | [] => h
    end
  else h.

Definition plain_message (role content : string) (name : option string) : Message :=
  {| role := role; content := Some content;
     name := if truthy_str name then name else None;
     tool_call_id := None; tool_calls := None |}.

(* ===================================================================== *)
(** ** Scenarios: collaborators for the concrete runs *)
(* ===================================================================== *)

(** A machine: the clock reads 14:30:00 on Wednesday 7 January 2026, [eval]
    accepts nothing, and the class inherits no attribute of interest. *)
Definition sample_runtime : Tools.Runtime :=
  {| Tools.now := fun _ =>
       {| Tools.strftime_HMS := "14:30:00";
          Tools.strftime_Ymd := "2026-01-07";
          Tools.strftime_A := "Wednesday" |};
     Tools.platform_system := "Linux";
     Tools.platform_release := "6.1.0";
     Tools.platform_version := "#1 SMP";
     Tools.platform_machine := "x86_64";
     Tools.platform_processor := "x86_64";
     Tools.platform_python_version := "3.11.4";
     Tools.eval_restricted := fun _ _ => Raise (Exception "SyntaxError" "invalid syntax");
     Tools.format_value := fun v => type_name v;
     Tools.range_min3 := fun v =>
       Raise (TypeError ("'<' not supported between instances of 'int' and '"
                         ++ type_name v ++ "'"));
     Tools.inherited := fun _ => None |}.

(** The same machine, on which the user presses Ctrl-C while [eval] runs. *)
Definition interrupted_runtime : Tools.Runtime :=
  {| Tools.now := Tools.now sample_runtime;
     Tools.platform_system := Tools.platform_system sample_runtime;
     Tools.platform_release := Tools.platform_release sample_runtime;
     Tools.platform_version := Tools.platform_version sample_runtime;
     Tools.platform_machine := Tools.platform_machine sample_runtime;
     Tools.platform_processor := Tools.platform_processor sample_runtime;
     Tools.platform_python_version := Tools.platform_python_version sample_runtime;
     Tools.eval_restricted := fun _ _ => Raise (BaseException "KeyboardInterrupt" "");
     Tools.format_value := Tools.format_value sample_runtime;
     Tools.range_min3 := Tools.range_min3 sample_runtime;
     Tools.inherited := Tools.inherited sample_runtime |}.

Definition fresh_world : World := {| requests := []; tool_invocations := 0 |}.

(** [VoiceAgent(api_key="sk-test", system_prompt="You are a test assistant.")] *)
Definition test_agent : VoiceAgent :=
  {| api_key := "sk-test"; model := default_model; max_history := default_max_history;
     system_prompt := "You are a test assistant.";
     conversation_history := [system_message "You are a test assistant."] |}.

Definition one_choice (content : option string) (tcs : option (list ToolCall))
           (finish_reason : string) : ChatCompletion :=
  {| choices := [ {| message := {| message_content := content;
                                   message_tool_calls := tcs |};
                     finish_reason := finish_reason |} ] |}.

Definition function_call (id name arguments : string) : ToolCall :=
  {| tc_id := id; tc_type := "function";
     tc_function_name := name; tc_function_arguments := arguments |}.

(** A backend whose request is cancelled: the awaited call raises
    [asyncio.CancelledError], which derives from [BaseException] only. *)
Definition backend_cancelled (n : nat) (model : string) (messages : list Message)
  : outcome ChatCompletion :=
  Raise (BaseException "CancelledError" "").

(** A backend that always answers in plain text. *)
Definition backend_says (text : string) (n : nat) (model : string)
           (messages : list Message) : outcome ChatCompletion :=
  Ok (one_choice (Some text) None "stop").

(** A backend that asks for one tool call on its first answer and says
    [text] afterwards. *)
Definition backend_calls_then_says (tool_call : ToolCall) (text : string)
           (n : nat) (model : string) (messages : list Message)
  : outcome ChatCompletion :=
  match n with
  | O => Ok (one_choice None (Some [tool_call]) "tool_calls")
  | S _ => Ok (one_choice (Some text) None "stop")
  end.

(** A backend that asks for the same tool call on every answer. *)
Definition backend_always_calls (tool_call : ToolCall)
           (n : nat) (model : string) (messages : list Message)
  : outcome ChatCompletion :=
  Ok (one_choice None (Some [tool_call]) "tool_calls").

(** A backend whose every answer carries the finish reason [tool_calls] and
    no tool call. *)
Definition backend_tool_calls_without_calls
           (n : nat) (model : string) (messages : list Message)
  : outcome ChatCompletion :=
  Ok (one_choice None None "tool_calls").

(** [{"expression": "9**9**9**9"}] *)
Definition long_calculation : string :=
  "{" ++ Json.quote ++ "expression" ++ Json.quote ++ ": "
      ++ Json.quote ++ "9**9**9**9" ++ Json.quote ++ "}".

(** Ten earlier exchanges: with the system message, a history at the default
    bound of 21 entries. *)
Definition earlier_exchanges : list Message :=
  flat_map (fun _ => [ plain_message "user" "Good morning" None;
                       plain_message "assistant" "Good morning!" None ])
           (seq 0 10).

Definition seasoned_agent : VoiceAgent :=
  set_history test_agent (system_message "You are a test assistant." :: earlier_exchanges).

(** An agent built with [max_history=0]. *)
Definition zero_bound_agent : VoiceAgent :=
  {| api_key := "sk-test"; model := default_model; max_history := 0;
     system_prompt := "You are a test assistant.";
     conversation_history := [system_message "You are a test assistant."] |}.

(** [{"query": "rocq", "num_results": "three"}] *)
Definition three_in_letters : string :=
  "{" ++ Json.quote ++ "query" ++ Json.quote ++ ": "
      ++ Json.quote ++ "rocq" ++ Json.quote ++ ", "
      ++ Json.quote ++ "num_results" ++ Json.quote ++ ": "
      ++ Json.quote ++ "three" ++ Json.quote ++ "}".


(* ===================================================================== *)
(** ** Vocabulary of the statements *)
(* ===================================================================== *)

(** An outcome an [except Exception] clause can handle: a value, or an
    exception of a class below [Exception]. *)
Definition catchable {A} (o : outcome A) : Prop :=
  forall e, o = Raise e -> is_Exception e = true.

(** A method body that raises nothing an [except Exception] clause would
    let through. *)
Definition raises_only_Exception {A} (m : M A) : Prop :=
  forall st e st', m st = (Raise e, st') -> is_Exception e = true.

(** A method body that returns from every state. *)
Definition returns {A} (m : M A) : Prop :=
  forall st, exists a st', m st = (Ok a, st').

(** The ["status"] entry of a tool result. *)
Definition status_of (result : pyval) : option pyval :=
  match result with
  | PDict d => dict_get "status" d
  | _ => None
  end.

(** The number of entries under ["results"] in what [search_web] gave. *)
Definition results_count (o : outcome pyval) : option nat :=
  match o with
  | Ok (PDict d) =>
      match dict_get "results" d with
      | Some (PList l) => Some (List.length l)
      | _ => None
      end
  | _ => None
  end.

Definition history (st : State) : list Message := conversation_history (fst st).

(** The JSON text of [{"status": "error", "error": msg}]. *)
Definition error_content (msg : string) : string :=
  "{" ++ Json.encode_str "status" ++ ": " ++ Json.encode_str "error" ++ ", "
      ++ Json.encode_str "error" ++ ": " ++ Json.encode_str msg ++ "}".

(** Invoking [tool_call] on its parsed arguments fails with [e]: the registry
    does not resolve the name, or the callee it resolves to raises. *)
Definition invocation_fails (get_tool_function : string -> outcome pyobject)
           (tool_call : ToolCall) (function_args : pyval) (tick : nat) (e : exn) : Prop :=
  get_tool_function (tc_function_name tool_call) = Raise e
  \/ exists f, get_tool_function (tc_function_name tool_call) = Ok f
               /\ call_kwargs f tick function_args = Raise e.

(** The arguments of [tool_call] deserialize. *)
Definition arguments_parse (json_loads : string -> outcome pyval)
           (tool_call : ToolCall) : Prop :=
  exists function_args, json_loads (tc_function_arguments tool_call) = Ok function_args.

(** The [tool] messages of an iteration: one per invocation, in order. *)
Definition tool_messages (tcs : list ToolCall) (contents : list string) : list Message :=
  map (fun p => tool_message (fst p) (snd p)) (combine tcs contents).

(** The backend asks for tool calls on every request: the finish reason is
    [tool_calls], at least one invocation is requested, and the arguments of
    each deserialize. *)
Definition always_requests_tools (json_loads : string -> outcome pyval)
           (chat_completions_create : nat -> string -> list Message -> outcome ChatCompletion)
  : Prop :=
  forall n m h,
    exists (am : ChatCompletionMessage) (others : list Choice)
           (first : ToolCall) (more : list ToolCall),
      chat_completions_create n m h
      = Ok {| choices := {| message := am; finish_reason := "tool_calls" |} :: others |}
      /\ message_tool_calls am = Some (first :: more)
      /\ Forall (arguments_parse json_loads) (first :: more).

(* ===================================================================== *)
(** ** Vocabulary of the further properties *)
(* ===================================================================== *)

(** The settings of the agent are the same. *)
Definition same_settings (a a' : VoiceAgent) : Prop :=
  api_key a' = api_key a /\ model a' = model a
  /\ max_history a' = max_history a /\ system_prompt a' = system_prompt a.

(** The first entry of a history, when it has one, is still the first. *)
Definition pinned (h h' : list Message) : Prop :=
  forall first rest, h = first :: rest -> exists rest', h' = first :: rest'.

(** What every step of a turn respects: the settings, the first entry of the
    history, and the requests already sent. *)
Definition respected (st st' : State) : Prop :=
  same_settings (fst st) (fst st')
  /\ pinned (history st) (history st')
  /\ exists more, requests (snd st') = (requests (snd st) ++ more)%list.

Definition respects {A} (m : M A) : Prop :=
  forall st o st', m st = (o, st') -> respected st st'.

(** A method body that sends between [lo] and [hi] requests, however it
    ends. *)
Definition sends {A} (lo hi : nat) (m : M A) : Prop :=
  forall st o st',
    m st = (o, st') ->
    (List.length (requests (snd st)) + lo <= List.length (requests (snd st')))%nat
    /\ (List.length (requests (snd st')) <= List.length (requests (snd st)) + hi)%nat.

(** The history is within the bound plus one. *)
Definition within_bound (st : State) : Prop :=
  Z.of_nat (List.length (history st)) <= max_history (fst st) + 1.

(** The agent after [add_message(role, content)]. *)
Definition after_add (a : VoiceAgent) (role content : string) : VoiceAgent :=
  set_history a
    (trimmed (max_history a)
       (conversation_history a ++ [plain_message role content None])%list).

(** The world after one more request with these messages. *)
Definition sent (w : World) (messages : list Message) : World :=
  {| requests := (requests w ++ [messages])%list;
     tool_invocations := tool_invocations w |}.

(** The entry of a tool result under a key. *)
Definition field (key : string) (result : pyval) : option pyval :=
  match result with
  | PDict d => dict_get key d
  | _ => None
  end.

(** Keyword arguments that conform to a schema: every keyword is one of the
    schema's properties, and every required property is given. *)
Definition conforms (schema : Tools.ToolSchema) (kw : list (string * pyval)) : Prop :=
  (forall k, In k (map fst kw) -> In k (map Tools.param_name (Tools.properties schema)))
  /\ (forall r, In r (Tools.required schema) -> In r (map fst kw)).

(** A machine on which [eval] computes [10 * 5 + 3] and rejects the rest. *)
Definition calculating_runtime : Tools.Runtime :=
  {| Tools.now := Tools.now sample_runtime;
     Tools.platform_system := Tools.platform_system sample_runtime;
     Tools.platform_release := Tools.platform_release sample_runtime;
     Tools.platform_version := Tools.platform_version sample_runtime;
     Tools.platform_machine := Tools.platform_machine sample_runtime;
     Tools.platform_processor := Tools.platform_processor sample_runtime;
     Tools.platform_python_version := Tools.platform_python_version sample_runtime;
     Tools.eval_restricted := fun _ expression =>
       if eq_str expression "10 * 5 + 3" then Ok (PInt 53)
       else Raise (Exception "SyntaxError" "invalid syntax");
     Tools.format_value := Tools.format_value sample_runtime;
     Tools.range_min3 := Tools.range_min3 sample_runtime;
     Tools.inherited := Tools.inherited sample_runtime |}.

(** The text a chunk contributes: the content of its first choice, when the
    chunk has a choice and the content is neither missing nor empty. *)
Definition chunk_text (chunk : ChatCompletionChunk) : option string :=
  match chunk_choices chunk with
  | choice :: _ =>
      match delta_content (delta choice) with
      | Some (String c s) => Some (String c s)
      | _ => None
      end
  | [] => None
  end.

Definition chunk_texts (cs : list ChatCompletionChunk) : list string :=
  flat_map (fun chunk => match chunk_text chunk with
                         | Some s => [s]
                         | None => []
                         end) cs.

(** The pieces of text put end to end. *)
Definition joined (pieces : list string) : string :=
  fold_right String.append EmptyString pieces.

Definition has_choice (chunk : ChatCompletionChunk) : Prop :=
  chunk_choices chunk <> [].

(** A streamed request that fails with something [except Exception]
    handles, after the stream has delivered the given pieces of text: the
    request itself raises; or a chunk arrives without any choice; or the
    iteration over the stream raises after its last chunk. *)
Inductive fails_after : outcome Stream -> list string -> Prop :=
| request_raises (e : exn) :
    is_Exception e = true ->
    fails_after (Raise e) []
| chunk_without_choice (before : list ChatCompletionChunk) (bad : ChatCompletionChunk)
                       (after : list ChatCompletionChunk) (end_of_stream : option exn) :
    Forall has_choice before ->
    chunk_choices bad = [] ->
    fails_after (Ok {| chunks := before ++ bad :: after; broken := end_of_stream |})
                (chunk_texts before)
| stream_breaks (cs : list ChatCompletionChunk) (e : exn) :
    Forall has_choice cs ->
    is_Exception e = true ->
    fails_after (Ok {| chunks := cs; broken := Some e |}) (chunk_texts cs).

Definition text_chunk (text : option string) : ChatCompletionChunk :=
  {| chunk_choices := [ {| delta := {| delta_content := text |} |} ] |}.

(** A stream that says "It is sunny." in three chunks, around a chunk with
    no text. *)
Definition sunny_stream : Stream :=
  {| chunks := [ text_chunk (Some "It "); text_chunk None;
                 text_chunk (Some "is "); text_chunk (Some "sunny.") ];
     broken := None |}.

(** The same stream, cut by a connection error after its second piece. *)
Definition cut_stream : Stream :=
  {| chunks := [ text_chunk (Some "It "); text_chunk (Some "is ") ];
     broken := Some (Exception "APIConnectionError" "Connection error.") |}.

Unset Implicit Arguments.

(* ===================================================================== *)
(** ** The monad: how raising and returning compose *)
(* ===================================================================== *)

Lemma returns_ret {A} (a : A) : returns (ret a).
Proof. intros st. exists a, st. reflexivity. Qed.

Lemma returns_bind {A B} (m : M A) (k : A -> M B) :
  returns m -> (forall a, returns (k a)) -> returns (bind m k).
Proof.
  intros Hm Hk st. destruct (Hm st) as (a & st1 & E1).
  destruct (Hk a st1) as (b & st2 & E2).
  exists b, st2. unfold bind. rewrite E1. exact E2.
Qed.

Lemma returns_raises_only {A} (m : M A) : returns m -> raises_only_Exception m.
Proof.
  intros Hm st e st' E. destruct (Hm st) as (a & st1 & E1). congruence.
Qed.

Lemma raises_only_ret {A} (a : A) : raises_only_Exception (ret a).
Proof. apply returns_raises_only, returns_ret. Qed.

Lemma raises_only_lift {A} (o : outcome A) :
  catchable o -> raises_only_Exception (lift o).
Proof. intros Ho st e st' E. unfold lift in E. inversion E; subst. now apply Ho. Qed.

Lemma raises_only_bind {A B} (m : M A) (k : A -> M B) :
  raises_only_Exception m -> (forall a, raises_only_Exception (k a)) ->
  raises_only_Exception (bind m k).
Proof.
  intros Hm Hk st e st' E. unfold bind in E.
  destruct (m st) as [[a | e1] st1] eqn:E1.
  - eapply Hk; eassumption.
  - inversion E; subst. eapply Hm; eassumption.
Qed.

(** The same, when what follows is only known to be safe on the values the
    first part can produce. *)
Lemma raises_only_bind_from {A B} (m : M A) (k : A -> M B) :
  raises_only_Exception m ->
  (forall st a st1, m st = (Ok a, st1) -> raises_only_Exception (k a)) ->
  raises_only_Exception (bind m k).
Proof.
  intros Hm Hk st e st' E. unfold bind in E.
  destruct (m st) as [[a | e1] st1] eqn:E1.
  - eapply Hk; eassumption.
  - inversion E; subst. eapply Hm; eassumption.
Qed.

(** A [try] whose handler returns always returns, provided the body raises
    nothing the handler would let through. *)
Lemma returns_try_except {A} (body : M A) (handler : exn -> M A) :
  raises_only_Exception body -> (forall e, returns (handler e)) ->
  returns (try_except body handler).
Proof.
  intros Hb Hh st. unfold try_except.
  destruct (body st) as [[a | e] st1] eqn:E1.
  - now exists a, st1.
  - rewrite (Hb _ _ _ E1). apply Hh.
Qed.

Lemma raises_only_for_each {A} (l : list A) (body : A -> M unit) :
  (forall x, raises_only_Exception (body x)) ->
  raises_only_Exception (for_each l body).
Proof.
  intros Hb. induction l as [| x rest IH]; simpl.
  - apply raises_only_ret.
  - apply raises_only_bind; auto.
Qed.

Lemma catchable_index0 {A} (l : list A) : catchable (index0 l).
Proof. destruct l; intros e E; inversion E; reflexivity. Qed.

(** [json.dumps] raises nothing but [TypeError]. *)
Lemma catchable_dumps (v : pyval) : catchable (Json.dumps v).
Proof.
  revert v.
  fix IH 1. intros v e. destruct v as [| [|] | z | r | s | l | d | t]; simpl;
    try discriminate.
  - (* list *)
    enough (Hl : forall e', (fix items (l : list pyval) : outcome (list string) :=
              match l with
              | [] => Ok []
              | x :: rest =>
                  obind (Json.dumps x) (fun sx =>
                  obind (items rest) (fun sr => Ok (sx :: sr)))
              end) l = Raise e' -> is_Exception e' = true).
    { destruct ((fix items (l : list pyval) : outcome (list string) := _) l) eqn:E;
        simpl; intros H; [discriminate |]. inversion H; subst. now apply Hl. }
    induction l as [| x rest IHl]; intros e'; [discriminate |].
    destruct (Json.dumps x) as [sx | ex] eqn:Ex; simpl.
    + destruct ((fix items (l : list pyval) : outcome (list string) := _) rest) eqn:Er;
        simpl; [discriminate |]. intros H; inversion H; subst. now apply IHl.
    + intros H; inversion H; subst. eapply IH; eassumption.
  - (* dict *)
    enough (Hd : forall e', (fix items (d : list (string * pyval)) : outcome (list string) :=
              match d with
              | [] => Ok []
              | (k, x) :: rest =>
                  obind (Json.dumps x) (fun sx =>
                  obind (items rest) (fun sr =>
                    Ok ((Json.encode_str k ++ ": " ++ sx) :: sr)))
              end) d = Raise e' -> is_Exception e' = true).
    { destruct ((fix items (d : list (string * pyval)) : outcome (list string) := _) d) eqn:E;
        simpl; intros H; [discriminate |]. inversion H; subst. now apply Hd. }
    induction d as [| [k x] rest IHd]; intros e'; [discriminate |].
    destruct (Json.dumps x) as [sx | ex] eqn:Ex; simpl.
    + destruct ((fix items (d : list (string * pyval)) : outcome (list string) := _) rest) eqn:Er;
        simpl; [discriminate |]. intros H; inversion H; subst. now apply IHd.
    + intros H; inversion H; subst. eapply IH; eassumption.
  - intros H; inversion H; reflexivity.
Qed.

(* ===================================================================== *)
(** ** [add_message] and the trim *)
(* ===================================================================== *)

Lemma slice_from_length {A} (m : Z) (l : list A) :
  1 <= m ->
  List.length (slice_from (- m) l) = Nat.min (List.length l) (Z.to_nat m).
Proof.
  intros Hm. unfold slice_from.
  assert (E : (- m <? 0) = true) by (apply Z.ltb_lt; lia). rewrite E.
  rewrite length_skipn. lia.
Qed.

(** With a bound of zero the slice [history[-0:]] is the whole history. *)
Lemma slice_from_zero {A} (l : list A) : slice_from (- 0) l = l.
Proof.
  unfold slice_from. cbn [Z.opp Z.ltb Z.compare].
  rewrite Z.min_l by lia. reflexivity.
Qed.

Lemma add_message_eq (role content : string) (name : option string)
      (a : VoiceAgent) (w : World) :
  add_message role content name (a, w)
  = (Ok tt,
     (set_history a
        (trimmed (max_history a)
                 (conversation_history a ++ [plain_message role content name])%list),
      w)).
Proof.
  unfold add_message, trimmed. fold (plain_message role content name).
  destruct (conversation_history a) as [| first rest]; simpl;
    destruct (_ >? _); reflexivity.
Qed.

Lemma returns_add_message (role content : string) (name : option string) :
  returns (add_message role content name).
Proof.
  intros [a w]. rewrite add_message_eq. eauto.
Qed.

Lemma returns_append (message : Message) : returns (append message).
Proof. intros [a w]. simpl. eauto. Qed.

(** The trim keeps the first entry. *)
Lemma trimmed_head (m : Z) (first : Message) (rest : list Message) (msg : Message) :
  exists rest', trimmed m ((first :: rest) ++ [msg])%list = first :: rest'.
Proof.
  unfold trimmed. simpl. destruct (_ >? _); eauto.
Qed.

(** With a bound of at least one, the trim brings any history down to the
    bound plus one, whatever its length was. *)
Lemma trimmed_length (m : Z) (h : list Message) :
  1 <= m -> Z.of_nat (List.length (trimmed m h)) <= m + 1.
Proof.
  intros Hm. unfold trimmed.
  destruct (Z.of_nat (List.length h) >? m + 1) eqn:E.
  - destruct h as [| first rest]; [simpl in *; lia |].
    cbn [List.length]. rewrite slice_from_length by assumption. lia.
  - rewrite Z.gtb_ltb in E. apply Z.ltb_ge in E. lia.
Qed.

(* ===================================================================== *)
(** ** The turn returns *)
(* ===================================================================== *)

Section Returns.

Variable json_loads : string -> outcome pyval.
Variable get_tool_function : string -> outcome pyobject.
Variable chat_completions_create : nat -> string -> list Message -> outcome ChatCompletion.

Hypothesis loads_catchable : forall s, catchable (json_loads s).
Hypothesis backend_catchable : forall n m h, catchable (chat_completions_create n m h).
Hypothesis resolve_catchable : forall name, catchable (get_tool_function name).
Hypothesis tools_catchable :
  forall name f tick args,
    get_tool_function name = Ok f -> catchable (call_kwargs f tick args).

Lemma raises_only_create_completion :
  raises_only_Exception (create_completion chat_completions_create).
Proof.
  intros [a w] e st' E. unfold create_completion in E.
  inversion E; subst. eapply backend_catchable; eassumption.
Qed.

Lemma returns_dumps_error_result (e : exn) :
  exists s, Json.dumps (error_result e) = Ok s.
Proof. unfold error_result. simpl. eauto. Qed.

(** The inner [try] always yields a result string. *)
Lemma returns_inner_try (function_name : string) (function_args : pyval) :
  returns
    (try_except
       (tool_function <- lift (get_tool_function function_name) ;;
        function_result <- invoke tool_function function_args ;;
        lift (Json.dumps function_result))
       (fun e => lift (Json.dumps (error_result e)))).
Proof.
  apply returns_try_except.
  - apply raises_only_bind_from; [apply raises_only_lift, resolve_catchable |].
    intros st0 f st1 Ef. unfold lift in Ef. inversion Ef; subst.
    apply raises_only_bind.
    + intros [a w] e st' E. unfold invoke in E. inversion E; subst.
      eapply tools_catchable; eassumption.
    + intros v. apply raises_only_lift, catchable_dumps.
  - intros e [a w]. destruct (returns_dumps_error_result e) as (s & Es).
    exists s, (a, w). unfold lift. now rewrite Es.
Qed.

Lemma raises_only_execute_tool_call (tool_call : ToolCall) :
  raises_only_Exception (execute_tool_call json_loads get_tool_function tool_call).
Proof.
  unfold execute_tool_call.
  apply raises_only_bind; [apply raises_only_lift, loads_catchable |].
  intros function_args. apply raises_only_bind.
  - apply returns_raises_only, returns_inner_try.
  - intros result_str. apply returns_raises_only, returns_append.
Qed.

Lemma raises_only_iteration_body :
  raises_only_Exception
    (iteration_body json_loads get_tool_function chat_completions_create).
Proof.
  unfold iteration_body.
  apply raises_only_bind; [apply raises_only_create_completion |].
  intros response.
  apply raises_only_bind; [apply raises_only_lift, catchable_index0 |].
  intros choice.
  destruct (_ && _)%bool.
  - apply raises_only_bind; [apply returns_raises_only, returns_append |].
    intros _. apply raises_only_bind; [| intros; apply raises_only_ret].
    apply raises_only_for_each, raises_only_execute_tool_call.
  - destruct (String.eqb _ _);
      (apply raises_only_bind;
       [apply returns_raises_only, returns_add_message | intros; apply raises_only_ret]).
Qed.

(** One turn of the loop never raises: whatever the [try] block raised, the
    handler turned into the error response. *)
Lemma returns_iteration :
  returns (iteration json_loads get_tool_function chat_completions_create).
Proof.
  apply returns_try_except; [apply raises_only_iteration_body |].
  intros e. apply returns_bind; [apply returns_add_message |].
  intros _. apply returns_ret.
Qed.

Lemma returns_agentic_loop (remaining : nat) :
  returns (agentic_loop json_loads get_tool_function chat_completions_create remaining).
Proof.
  induction remaining as [| k IH]; simpl.
  - apply returns_ret.
  - apply returns_bind; [apply returns_iteration |].
    intros [| s]; [exact IH | apply returns_ret].
Qed.

Lemma returns_process_user_input (user_input : string) :
  returns (process_user_input json_loads get_tool_function chat_completions_create
                              user_input).
Proof.
  unfold process_user_input.
  apply returns_bind; [apply returns_add_message |]. intros _.
  apply returns_bind; [apply returns_agentic_loop |].
  intros [response |]; [apply returns_ret |].
  apply returns_bind; [apply returns_add_message |]. intros _. apply returns_ret.
Qed.

End Returns.

(* ===================================================================== *)
(** ** The toolbox raises what its runtime raises *)
(* ===================================================================== *)

Lemma catchable_Ok {A} (a : A) : catchable (Ok a).
Proof. intros e E. discriminate. Qed.

Lemma catchable_Raise_Exception {A} (cls msg : string) :
  catchable (@Raise A (Exception cls msg)).
Proof. intros e E. inversion E. reflexivity. Qed.

Lemma catchable_obind {A B} (o : outcome A) (k : A -> outcome B) :
  catchable o -> (forall a, catchable (k a)) -> catchable (obind o k).
Proof.
  intros Ho Hk e E. destruct o as [a | e1]; simpl in E.
  - eapply Hk; eassumption.
  - inversion E; subst. now apply Ho.
Qed.

Lemma catchable_otry {A} (body : outcome A) (handler : exn -> outcome A) :
  catchable body -> (forall e, catchable (handler e)) -> catchable (otry body handler).
Proof.
  intros Hb Hh e E. unfold otry in E. destruct body as [a | e1]; [discriminate |].
  rewrite (Hb e1 eq_refl) in E. eapply Hh; eassumption.
Qed.

Lemma catchable_check_keywords (q : string) (params : list string)
      (kw : list (string * pyval)) :
  catchable (Tools.check_keywords q params kw).
Proof.
  unfold Tools.check_keywords. destruct (find _ kw) as [[k v] |].
  - apply catchable_Raise_Exception.
  - apply catchable_Ok.
Qed.

Lemma catchable_keyword (q p : string) (default : option pyval)
      (kw : list (string * pyval)) :
  catchable (Tools.keyword q p default kw).
Proof.
  unfold Tools.keyword. destruct (dict_get p kw), default;
    first [apply catchable_Ok | apply catchable_Raise_Exception].
Qed.

Lemma catchable_call_str (s : string) (tick : nat) (args : pyval) :
  catchable (call_kwargs (PyStr s) tick args).
Proof. destruct args; simpl; apply catchable_Raise_Exception. Qed.

Lemma catchable_call_function (m q : string)
      (body : nat -> list (string * pyval) -> outcome pyval) (tick : nat) (args : pyval) :
  (forall kw, catchable (body tick kw)) ->
  catchable (call_kwargs (PyFunction m q body) tick args).
Proof.
  intros Hb. destruct args; simpl; first [apply Hb | apply catchable_Raise_Exception].
Qed.

Create HintDb catchable.
#[local] Hint Resolve catchable_Ok catchable_Raise_Exception catchable_check_keywords
  catchable_keyword catchable_call_str : catchable.

Section ToolBoxRaises.

Variable rt : Tools.Runtime.

Hypothesis eval_catchable : forall tick v, catchable (Tools.eval_restricted rt tick v).
Hypothesis range_catchable : forall v, catchable (Tools.range_min3 rt v).
Hypothesis inherited_catchable :
  forall name o tick args,
    Tools.inherited rt name = Some o -> catchable (call_kwargs o tick args).

Lemma catchable_range_min (num_results : pyval) :
  catchable (Tools.range_min rt num_results).
Proof. destruct num_results; simpl; auto with catchable. Qed.

Lemma catchable_search_web (query num_results : pyval) :
  catchable (Tools.search_web rt query num_results).
Proof.
  unfold Tools.search_web.
  apply catchable_obind; [apply catchable_range_min | auto with catchable].
Qed.

Lemma catchable_calculate (tick : nat) (expression : pyval) :
  catchable (Tools.calculate rt tick expression).
Proof.
  unfold Tools.calculate. apply catchable_otry; [| auto with catchable].
  apply catchable_obind; auto with catchable.
Qed.

Lemma catchable_get_tool_function (name : string) :
  catchable (Tools.get_tool_function rt name).
Proof.
  unfold Tools.get_tool_function, Tools.getattr_ToolBox.
  destruct (Tools.class_dict_get _ _); auto with catchable.
  destruct (Tools.inherited rt name); auto with catchable.
  apply catchable_Raise_Exception.
Qed.

Lemma catchable_ToolBox_call (name : string) (f : pyobject) (tick : nat) (args : pyval) :
  Tools.get_tool_function rt name = Ok f -> catchable (call_kwargs f tick args).
Proof.
  unfold Tools.get_tool_function, Tools.getattr_ToolBox.
  destruct (Tools.class_dict_get name (Tools.ToolBox rt)) as [o |] eqn:Ec.
  - intros E; inversion E; subst; clear E.
    cbn [Tools.class_dict_get Tools.ToolBox] in Ec.
    repeat match type of Ec with
           | (if ?c then _ else _) = _ => destruct c
           end;
      try discriminate; inversion Ec; subst; clear Ec;
      auto with catchable;
      apply catchable_call_function; intros kw;
      repeat (apply catchable_obind; [auto with catchable | intros]);
      auto using catchable_range_min, catchable_search_web, catchable_calculate
        with catchable.
  - destruct (Tools.inherited rt name) as [o |] eqn:Ei; [| discriminate].
    intros E; inversion E; subst. eapply inherited_catchable; eassumption.
Qed.

End ToolBoxRaises.

Lemma catchable_loads (s : string) : catchable (Json.loads s).
Proof.
  unfold Json.loads. destruct (Json.value _ _) as [[v rest] |];
    [destruct (Json.skip_ws rest) |];
    first [apply catchable_Ok | apply catchable_Raise_Exception].
Qed.

(* ===================================================================== *)
(** ** Claims about [process_user_input] as a whole *)
(* ===================================================================== *)

(** C4 (as amended).  Whatever the user says, and however the backend,
    [json.loads], the registry and the tools behave, as long as everything
    they raise is an instance of [Exception], [process_user_input] returns a
    string to its caller and does not raise. *)
Theorem process_user_input_returns_a_string
        (json_loads : string -> outcome pyval)
        (get_tool_function : string -> outcome pyobject)
        (chat_completions_create : nat -> string -> list Message -> outcome ChatCompletion)
        (user_input : string) (st : State) :
  (forall s, catchable (json_loads s)) ->
  (forall n m h, catchable (chat_completions_create n m h)) ->
  (forall name, catchable (get_tool_function name)) ->
  (forall name f tick args,
      get_tool_function name = Ok f -> catchable (call_kwargs f tick args)) ->
  exists (response : string) (st' : State),
    process_user_input json_loads get_tool_function chat_completions_create
                       user_input st
    = (Ok response, st').
Proof.
  intros Hl Hb Hr Ht.
  now apply returns_process_user_input.
Qed.

Lemma sample_runtime_eval (tick : nat) (v : pyval) :
  catchable (Tools.eval_restricted sample_runtime tick v).
Proof. apply catchable_Raise_Exception. Qed.

Lemma sample_runtime_range (v : pyval) : catchable (Tools.range_min3 sample_runtime v).
Proof. apply catchable_Raise_Exception. Qed.

Lemma sample_runtime_inherited (name : string) (o : pyobject) (tick : nat) (args : pyval) :
  Tools.inherited sample_runtime name = Some o -> catchable (call_kwargs o tick args).
Proof. discriminate. Qed.

(** C4, an instance: the real toolbox on the sample machine, the JSON reader,
    and a backend that answers in plain text. *)
Lemma process_user_input_returns_a_string_witness :
  exists (response : string) (st' : State),
    process_user_input Json.loads (Tools.get_tool_function sample_runtime)
                       (backend_says "Hello!") "Hi" (test_agent, fresh_world)
    = (Ok response, st').
Proof.
  apply process_user_input_returns_a_string.
  - exact catchable_loads.
  - intros n m h. apply catchable_Ok.
  - exact (catchable_get_tool_function sample_runtime).
  - intros name f tick args.
    apply catchable_ToolBox_call.
    + exact sample_runtime_eval.
    + exact sample_runtime_range.
    + exact sample_runtime_inherited.
Defined.

(** C4 (as stated) fails: when the awaited backend call is cancelled, the
    [CancelledError] is not an [Exception], passes the handler, and
    [process_user_input] raises it to its caller. *)
Lemma process_user_input_raises_when_cancelled :
  fst (process_user_input Json.loads (Tools.get_tool_function sample_runtime)
                          backend_cancelled "Hi" (test_agent, fresh_world))
  = Raise (BaseException "CancelledError" "").
Proof. reflexivity. Qed.

(* ===================================================================== *)
(** ** The invocation boundary *)
(* ===================================================================== *)

Lemma dumps_error_result (e : exn) :
  Json.dumps (error_result e) = Ok (error_content (str_exn e)).
Proof. reflexivity. Qed.

(** The inner [try] turns a failed invocation into the error text. *)
Lemma inner_try_on_failure
      (get_tool_function : string -> outcome pyobject)
      (tool_call : ToolCall) (function_args : pyval) (e : exn)
      (a : VoiceAgent) (w : World) :
  invocation_fails get_tool_function tool_call function_args (tool_invocations w) e ->
  is_Exception e = true ->
  exists w',
    try_except
      (tool_function <- lift (get_tool_function (tc_function_name tool_call)) ;;
       function_result <- invoke tool_function function_args ;;
       lift (Json.dumps function_result))
      (fun e => lift (Json.dumps (error_result e))) (a, w)
    = (Ok (error_content (str_exn e)), (a, w'))
    /\ requests w' = requests w.
Proof.
  intros [Er | (f & Ef & Ec)] He; unfold try_except, bind, lift, invoke.
  - rewrite Er, He. exists w. rewrite dumps_error_result. auto.
  - rewrite Ef, Ec, He. rewrite dumps_error_result. eexists. split; reflexivity.
Qed.

(** C3 (as amended).  When the arguments of an invocation deserialize and the
    invocation fails, whether the registry does not know the name or the tool
    body raises, with an exception [e] that is an instance of [Exception],
    the failure is absorbed at the invocation: [execute_tool_call] returns
    normally, the history grows by exactly one message, of role [tool],
    linked to the invocation, whose content is the JSON text of
    [{"status": "error", "error": str(e)}], and whatever follows in the turn
    (the remaining invocations, the next request to the model) runs next. *)
Theorem tool_failure_becomes_one_error_message
        (json_loads : string -> outcome pyval)
        (get_tool_function : string -> outcome pyobject)
        (tool_call : ToolCall) (function_args : pyval) (e : exn)
        (a : VoiceAgent) (w : World) :
  json_loads (tc_function_arguments tool_call) = Ok function_args ->
  invocation_fails get_tool_function tool_call function_args (tool_invocations w) e ->
  is_Exception e = true ->
  exists st' : State,
    execute_tool_call json_loads get_tool_function tool_call (a, w) = (Ok tt, st')
    /\ history st'
       = (conversation_history a
            ++ [ {| role := "tool";
                    content := Some (error_content (str_exn e));
                    name := Some (tc_function_name tool_call);
                    tool_call_id := Some (tc_id tool_call);
                    tool_calls := None |} ])%list
    /\ forall (B : Type) (rest_of_turn : M B),
         (execute_tool_call json_loads get_tool_function tool_call ;; rest_of_turn) (a, w)
         = rest_of_turn st'.
Proof.
  intros Hargs Hfail He.
  destruct (inner_try_on_failure get_tool_function tool_call function_args e a w
              Hfail He) as (w' & Etry & _).
  exists (set_history a (conversation_history a ++ [tool_message tool_call
            (error_content (str_exn e))])%list, w').
  assert (E : execute_tool_call json_loads get_tool_function tool_call (a, w)
              = (Ok tt, (set_history a (conversation_history a ++ [tool_message tool_call
                   (error_content (str_exn e))])%list, w'))).
  { unfold execute_tool_call. unfold bind at 1. unfold lift at 1. rewrite Hargs.
    unfold bind at 1. rewrite Etry. reflexivity. }
  split; [exact E |]. split; [reflexivity |].
  intros B k. unfold bind. rewrite E. reflexivity.
Qed.

(** C3, an instance: the model asks for [get_stock_price], which the toolbox
    does not have; the [AttributeError] of the lookup, with the unknown name
    in its message, becomes the tool message. *)
Lemma tool_failure_becomes_one_error_message_witness :
  exists st' : State,
    execute_tool_call Json.loads (Tools.get_tool_function sample_runtime)
                      (function_call "call_9" "get_stock_price" "{}")
                      (test_agent, fresh_world)
    = (Ok tt, st')
    /\ history st'
       = (conversation_history test_agent
            ++ [ {| role := "tool";
                    content :=
                      Some (error_content
                              "type object 'ToolBox' has no attribute 'get_stock_price'");
                    name := Some "get_stock_price";
                    tool_call_id := Some "call_9";
                    tool_calls := None |} ])%list
    /\ forall (B : Type) (rest_of_turn : M B),
         (execute_tool_call Json.loads (Tools.get_tool_function sample_runtime)
                            (function_call "call_9" "get_stock_price" "{}") ;;
          rest_of_turn) (test_agent, fresh_world)
         = rest_of_turn st'.
Proof.
  apply (tool_failure_becomes_one_error_message
           Json.loads (Tools.get_tool_function sample_runtime)
           (function_call "call_9" "get_stock_price" "{}") (PDict [])
           (AttributeError "type object 'ToolBox' has no attribute 'get_stock_price'")
           test_agent fresh_world).
  - reflexivity.
  - left. reflexivity.
  - reflexivity.
Defined.

(** C3 (as stated) fails for an exception that is not an [Exception]: the
    model asks for [calculate], the user interrupts the evaluation, and the
    [KeyboardInterrupt] raised inside the tool body passes both handlers and
    leaves [process_user_input]; no [tool] message is written. *)
Lemma interrupted_tool_propagates :
  process_user_input Json.loads (Tools.get_tool_function interrupted_runtime)
                     (backend_calls_then_says
                        (function_call "call_1" "calculate" long_calculation) "Done.")
                     "Compute 9**9**9**9" (test_agent, fresh_world)
  = (Raise (BaseException "KeyboardInterrupt" ""),
     (set_history test_agent
        [ system_message "You are a test assistant.";
          plain_message "user" "Compute 9**9**9**9" None;
          {| role := "assistant"; content := None; name := None; tool_call_id := None;
             tool_calls := Some [function_call "call_1" "calculate" long_calculation] |} ],
      {| requests := [ [ system_message "You are a test assistant.";
                         plain_message "user" "Compute 9**9**9**9" None ] ];
         tool_invocations := 1 |})).
Proof. vm_compute. reflexivity. Qed.

(** A tool body that raises: [search_web] asked for "three" results.  The
    [TypeError] of the comparison becomes the content of the tool message. *)
Lemma raising_tool_is_reported :
  execute_tool_call Json.loads (Tools.get_tool_function sample_runtime)
                    (function_call "call_2" "search_web" three_in_letters)
                    (test_agent, fresh_world)
  = (Ok tt,
     (set_history test_agent
        [ system_message "You are a test assistant.";
          {| role := "tool";
             content :=
               Some (error_content
                       "'<' not supported between instances of 'int' and 'str'");
             name := Some "search_web";
             tool_call_id := Some "call_2";
             tool_calls := None |} ],
      {| requests := []; tool_invocations := 1 |})).
Proof. vm_compute. reflexivity. Qed.

(** A whole turn around a failed invocation: the model asks for a tool the
    registry does not know, reads the error, and answers; the turn ends with
    that answer. *)
Lemma unknown_tool_turn_completes :
  process_user_input Json.loads (Tools.get_tool_function sample_runtime)
                     (backend_calls_then_says
                        (function_call "call_9" "get_stock_price" "{}")
                        "I cannot look up stock prices.")
                     "How is the market?" (test_agent, fresh_world)
  = (Ok "I cannot look up stock prices.",
     (set_history test_agent
        [ system_message "You are a test assistant.";
          plain_message "user" "How is the market?" None;
          {| role := "assistant"; content := None; name := None; tool_call_id := None;
             tool_calls := Some [function_call "call_9" "get_stock_price" "{}"] |};
          {| role := "tool";
             content :=
               Some (error_content
                       "type object 'ToolBox' has no attribute 'get_stock_price'");
             name := Some "get_stock_price";
             tool_call_id := Some "call_9";
             tool_calls := None |};
          plain_message "assistant" "I cannot look up stock prices." None ],
      {| requests :=
           [ [ system_message "You are a test assistant.";
               plain_message "user" "How is the market?" None ];
             [ system_message "You are a test assistant.";
               plain_message "user" "How is the market?" None;
               {| role := "assistant"; content := None; name := None;
                  tool_call_id := None;
                  tool_calls := Some [function_call "call_9" "get_stock_price" "{}"] |};
               {| role := "tool";
                  content :=
                    Some (error_content
                            "type object 'ToolBox' has no attribute 'get_stock_price'");
                  name := Some "get_stock_price";
                  tool_call_id := Some "call_9";
                  tool_calls := None |} ] ];
         tool_invocations := 0 |})).
Proof. vm_compute. reflexivity. Qed.

(* ===================================================================== *)
(** ** An iteration that dispatches tools goes on to the next one *)
(* ===================================================================== *)

Section Dispatch.

Variable json_loads : string -> outcome pyval.
Variable get_tool_function : string -> outcome pyobject.
Variable chat_completions_create : nat -> string -> list Message -> outcome ChatCompletion.

Hypothesis resolve_catchable : forall name, catchable (get_tool_function name).
Hypothesis tools_catchable :
  forall name f tick args,
    get_tool_function name = Ok f -> catchable (call_kwargs f tick args).

(** The inner [try] yields a result string and touches neither the agent nor
    the request log. *)
Lemma inner_try_result (function_name : string) (function_args : pyval)
      (a : VoiceAgent) (w : World) :
  exists (result_str : string) (w' : World),
    try_except
      (tool_function <- lift (get_tool_function function_name) ;;
       function_result <- invoke tool_function function_args ;;
       lift (Json.dumps function_result))
      (fun e => lift (Json.dumps (error_result e))) (a, w)
    = (Ok result_str, (a, w'))
    /\ requests w' = requests w.
Proof.
  unfold try_except, bind, lift, invoke.
  destruct (get_tool_function function_name) as [f | e] eqn:Ef.
  - destruct (call_kwargs f (tool_invocations w) function_args) as [v | e] eqn:Ec.
    + destruct (Json.dumps v) as [s | e] eqn:Ed.
      * eexists _, _. split; reflexivity.
      * rewrite (catchable_dumps v e Ed), dumps_error_result.
        eexists _, _. split; reflexivity.
    + rewrite (tools_catchable _ _ _ _ Ef e Ec), dumps_error_result.
      eexists _, _. split; reflexivity.
  - rewrite (resolve_catchable _ e Ef), dumps_error_result.
    eexists _, _. split; reflexivity.
Qed.

Lemma execute_tool_call_parsed (tool_call : ToolCall) (a : VoiceAgent) (w : World) :
  arguments_parse json_loads tool_call ->
  exists (result_str : string) (w' : World),
    execute_tool_call json_loads get_tool_function tool_call (a, w)
    = (Ok tt,
       (set_history a (conversation_history a ++ [tool_message tool_call result_str])%list,
        w'))
    /\ requests w' = requests w.
Proof.
  intros (function_args & Hargs).
  destruct (inner_try_result (tc_function_name tool_call) function_args a w)
    as (s & w' & Etry & Hreq).
  exists s, w'. split; [| exact Hreq].
  unfold execute_tool_call. unfold bind at 1. unfold lift at 1. rewrite Hargs.
  unfold bind at 1. rewrite Etry. reflexivity.
Qed.

Lemma for_each_execute_parsed (tcs : list ToolCall) :
  Forall (arguments_parse json_loads) tcs ->
  forall (a : VoiceAgent) (w : World),
  exists (contents : list string) (w' : World),
    for_each tcs (execute_tool_call json_loads get_tool_function) (a, w)
    = (Ok tt,
       (set_history a (conversation_history a ++ tool_messages tcs contents)%list, w'))
    /\ List.length contents = List.length tcs
    /\ requests w' = requests w.
Proof.
  induction 1 as [| tc rest Htc _ IH]; intros a w.
  - exists [], w. simpl. rewrite app_nil_r. destruct a; auto.
  - destruct (execute_tool_call_parsed tc a w Htc) as (s & w1 & E1 & R1).
    destruct (IH (set_history a (conversation_history a ++ [tool_message tc s])%list) w1)
      as (contents & w2 & E2 & L2 & R2).
    exists (s :: contents), w2. repeat split.
    + simpl for_each. unfold bind at 1. rewrite E1, E2.
      unfold tool_messages. simpl. rewrite <- app_assoc. reflexivity.
    + simpl. now rewrite L2.
    + congruence.
Qed.

(** When the backend asks for tool calls whose arguments deserialize, the
    iteration ends in [continue]: one request was sent, and the history grew
    by the assistant message and one [tool] message per invocation. *)
Lemma iteration_dispatches (a : VoiceAgent) (w : World)
      (am : ChatCompletionMessage) (others : list Choice)
      (first : ToolCall) (more : list ToolCall) :
  chat_completions_create (List.length (requests w)) (model a) (conversation_history a)
  = Ok {| choices := {| message := am; finish_reason := "tool_calls" |} :: others |} ->
  message_tool_calls am = Some (first :: more) ->
  Forall (arguments_parse json_loads) (first :: more) ->
  exists (contents : list string) (w' : World),
    iteration json_loads get_tool_function chat_completions_create (a, w)
    = (Ok Continue,
       (set_history a
          (conversation_history a
             ++ assistant_tool_call_message am (first :: more)
             :: tool_messages (first :: more) contents)%list,
        w'))
    /\ List.length contents = List.length (first :: more)
    /\ requests w' = (requests w ++ [conversation_history a])%list.
Proof.
  intros Hresp Htcs Hparse.
  destruct (for_each_execute_parsed (first :: more) Hparse
              (set_history a (conversation_history a
                                ++ [assistant_tool_call_message am (first :: more)])%list)
              {| requests := (requests w ++ [conversation_history a])%list;
                 tool_invocations := tool_invocations w |})
    as (contents & w' & Efor & Hlen & Hreq).
  exists contents, w'. repeat split; [| exact Hlen | exact Hreq].
  unfold iteration, try_except, iteration_body.
  unfold bind at 1. unfold create_completion. rewrite Hresp.
  unfold bind at 1. cbn [lift index0 choices message finish_reason].
  rewrite Htcs. cbn [String.eqb Ascii.eqb Bool.eqb andb truthy_list].
  unfold bind at 1. cbn [append].
  unfold bind at 1. rewrite Efor.
  cbn [ret set_history conversation_history api_key model max_history system_prompt].
  rewrite <- app_assoc. reflexivity.
Qed.

End Dispatch.

(* ===================================================================== *)
(** ** The iteration budget *)
(* ===================================================================== *)

Section Budget.

Variable json_loads : string -> outcome pyval.
Variable get_tool_function : string -> outcome pyobject.
Variable chat_completions_create : nat -> string -> list Message -> outcome ChatCompletion.

Hypothesis resolve_catchable : forall name, catchable (get_tool_function name).
Hypothesis tools_catchable :
  forall name f tick args,
    get_tool_function name = Ok f -> catchable (call_kwargs f tick args).
Hypothesis backend_requests_tools :
  always_requests_tools json_loads chat_completions_create.

(** Against such a backend the loop uses all the turns it is given, one
    request each, and ends without a [return]. *)
Lemma agentic_loop_exhausts (remaining : nat) (a : VoiceAgent) (w : World) :
  exists (a' : VoiceAgent) (w' : World),
    agentic_loop json_loads get_tool_function chat_completions_create remaining (a, w)
    = (Ok None, (a', w'))
    /\ List.length (requests w') = (List.length (requests w) + remaining)%nat
    /\ max_history a' = max_history a.
Proof.
  revert a w. induction remaining as [| k IH]; intros a w.
  - exists a, w. simpl. repeat split. lia.
  - destruct (backend_requests_tools (List.length (requests w)) (model a)
                                     (conversation_history a))
      as (am & others & first & more & Hresp & Htcs & Hparse).
    destruct (iteration_dispatches json_loads get_tool_function chat_completions_create
                resolve_catchable tools_catchable a w am others first more
                Hresp Htcs Hparse)
      as (contents & w1 & Eit & _ & Hreq).
    match type of Eit with _ = (_, (?a1, _)) =>
      destruct (IH a1 w1) as (a' & w' & Eloop & Hlen & Hmax) end.
    exists a', w'. repeat split.
    + simpl agentic_loop. unfold bind at 1. rewrite Eit. exact Eloop.
    + rewrite Hlen, Hreq, length_app. simpl. lia.
    + rewrite Hmax. reflexivity.
Qed.

End Budget.

(** C5 (as amended).  If on every request the backend answers with the finish
    reason [tool_calls] together with at least one invocation, the arguments
    of every invocation deserialize, and the registry and the tools raise
    nothing outside [Exception], then [process_user_input] sends exactly five
    requests ([max_iterations]), appends the fixed fallback message through
    [add_message], and returns it. *)
Theorem budget_exhausted_after_five_requests
        (json_loads : string -> outcome pyval)
        (get_tool_function : string -> outcome pyobject)
        (chat_completions_create : nat -> string -> list Message -> outcome ChatCompletion)
        (user_input : string) (a : VoiceAgent) (w : World) :
  always_requests_tools json_loads chat_completions_create ->
  (forall name, catchable (get_tool_function name)) ->
  (forall name f tick args,
      get_tool_function name = Ok f -> catchable (call_kwargs f tick args)) ->
  exists (a' : VoiceAgent) (w' : World) (before : list Message),
    process_user_input json_loads get_tool_function chat_completions_create
                       user_input (a, w)
    = (Ok "I apologize, but I'm having trouble completing that request.", (a', w'))
    /\ List.length (requests w') = (List.length (requests w) + 5)%nat
    /\ conversation_history a'
       = trimmed (max_history a)
           (before ++ [plain_message "assistant"
                         "I apologize, but I'm having trouble completing that request."
                         None])%list.
Proof.
  intros Hbackend Hresolve Htools.
  unfold process_user_input. unfold bind at 1. rewrite add_message_eq.
  unfold bind at 1.
  match goal with |- context [agentic_loop _ _ _ _ (?a1, w)] =>
    destruct (agentic_loop_exhausts json_loads get_tool_function chat_completions_create
                Hresolve Htools Hbackend max_iterations a1 w)
      as (a2 & w2 & Eloop & Hlen & Hmax) end.
  rewrite Eloop.
  unfold bind at 1. rewrite add_message_eq.
  eexists _, _, (conversation_history a2). repeat split.
  - exact Hlen.
  - simpl. rewrite Hmax. reflexivity.
Qed.

(** C5, an instance: a backend that asks for the time on every request. *)
Lemma budget_exhausted_after_five_requests_witness :
  exists (a' : VoiceAgent) (w' : World) (before : list Message),
    process_user_input Json.loads (Tools.get_tool_function sample_runtime)
                       (backend_always_calls (function_call "call_1" "get_current_time" "{}"))
                       "What time is it?" (test_agent, fresh_world)
    = (Ok "I apologize, but I'm having trouble completing that request.", (a', w'))
    /\ List.length (requests w') = (List.length (requests fresh_world) + 5)%nat
    /\ conversation_history a'
       = trimmed (max_history test_agent)
           (before ++ [plain_message "assistant"
                         "I apologize, but I'm having trouble completing that request."
                         None])%list.
Proof.
  apply budget_exhausted_after_five_requests.
  - intros n m h.
    exists {| message_content := None;
              message_tool_calls := Some [function_call "call_1" "get_current_time" "{}"] |},
           [], (function_call "call_1" "get_current_time" "{}"), [].
    repeat split. constructor; [| constructor].
    exists (PDict []). reflexivity.
  - exact (catchable_get_tool_function sample_runtime).
  - intros name f tick args. apply catchable_ToolBox_call.
    + exact sample_runtime_eval.
    + exact sample_runtime_range.
    + exact sample_runtime_inherited.
Defined.

(** C5 (as stated) fails: a backend whose every answer has the finish reason
    [tool_calls] but carries no invocation is not dispatched; the first
    answer falls to the last branch, and the turn ends after one request with
    the apology for an unexpected finish reason. *)
Lemma tool_calls_without_calls_end_the_turn :
  fst (process_user_input Json.loads (Tools.get_tool_function sample_runtime)
                          backend_tool_calls_without_calls
                          "What time is it?" (test_agent, fresh_world))
  = Ok "I apologize, but I encountered an issue processing your request."
  /\ List.length
       (requests
          (snd (snd (process_user_input Json.loads
                       (Tools.get_tool_function sample_runtime)
                       backend_tool_calls_without_calls
                       "What time is it?" (test_agent, fresh_world)))))
     = 1%nat.
Proof. split; reflexivity. Qed.

(* ===================================================================== *)
(** ** Arguments that do not deserialize *)
(* ===================================================================== *)

(** [json.loads] is called before the inner [try] opens.  When it raises on
    the first invocation of an iteration, the exception reaches the outer
    handler: no [tool] message is written, the error response is added after
    the assistant message that carries the tool calls, and the turn ends. *)
Lemma malformed_arguments_reach_the_outer_handler
      (json_loads : string -> outcome pyval)
      (get_tool_function : string -> outcome pyobject)
      (chat_completions_create : nat -> string -> list Message -> outcome ChatCompletion)
      (a : VoiceAgent) (w : World)
      (am : ChatCompletionMessage) (others : list Choice)
      (first : ToolCall) (more : list ToolCall) (e : exn) :
  chat_completions_create (List.length (requests w)) (model a) (conversation_history a)
  = Ok {| choices := {| message := am; finish_reason := "tool_calls" |} :: others |} ->
  message_tool_calls am = Some (first :: more) ->
  json_loads (tc_function_arguments first) = Raise e ->
  is_Exception e = true ->
  iteration json_loads get_tool_function chat_completions_create (a, w)
  = (Ok (Return error_response),
     (set_history a
        (trimmed (max_history a)
           (conversation_history a
              ++ [ assistant_tool_call_message am (first :: more);
                   plain_message "assistant" error_response None ]))%list,
      {| requests := (requests w ++ [conversation_history a])%list;
         tool_invocations := tool_invocations w |})).
Proof.
  intros Hresp Htcs Hloads He.
  unfold iteration, try_except, iteration_body.
  unfold bind at 1. unfold create_completion. rewrite Hresp.
  unfold bind at 1. cbn [lift index0 choices message finish_reason].
  rewrite Htcs. cbn [String.eqb Ascii.eqb Bool.eqb andb truthy_list].
  unfold bind at 1. cbn [append].
  unfold bind at 1. cbn [for_each].
  unfold bind at 1. unfold execute_tool_call.
  unfold bind at 1. unfold lift at 1. rewrite Hloads. rewrite He.
  unfold bind at 1. rewrite add_message_eq.
  cbn [ret set_history conversation_history api_key model max_history system_prompt].
  rewrite <- app_assoc. reflexivity.
Qed.

(** Arguments that are JSON but no mapping do get the local treatment: the
    call with [**] raises a [TypeError] inside the inner [try]. *)
Lemma non_mapping_arguments_are_reported
      (json_loads : string -> outcome pyval)
      (get_tool_function : string -> outcome pyobject)
      (tool_call : ToolCall) (function_args : pyval) (f : pyobject)
      (a : VoiceAgent) (w : World) :
  json_loads (tc_function_arguments tool_call) = Ok function_args ->
  (forall kw, function_args <> PDict kw) ->
  get_tool_function (tc_function_name tool_call) = Ok f ->
  exists (msg : string) (w' : World),
    execute_tool_call json_loads get_tool_function tool_call (a, w)
    = (Ok tt,
       (set_history a
          (conversation_history a ++ [tool_message tool_call (error_content msg)])%list,
        w')).
Proof.
  intros Hargs Hnot Hf.
  assert (Hcall : exists msg, call_kwargs f (tool_invocations w) function_args
                              = Raise (TypeError msg)).
  { destruct function_args; simpl; eauto. now destruct (Hnot d). }
  destruct Hcall as (msg & Hcall).
  destruct (inner_try_on_failure get_tool_function tool_call function_args
              (TypeError msg) a w) as (w' & Etry & _).
  { right. exists f. auto. }
  { reflexivity. }
  exists msg, w'.
  unfold execute_tool_call. unfold bind at 1. unfold lift at 1. rewrite Hargs.
  unfold bind at 1. rewrite Etry. reflexivity.
Qed.

(** A list where a mapping is expected: the invocation is reported, and the
    loop goes on. *)
Lemma list_arguments_are_reported :
  execute_tool_call Json.loads (Tools.get_tool_function sample_runtime)
                    (function_call "call_3" "get_current_weather" "[1, 2]")
                    (test_agent, fresh_world)
  = (Ok tt,
     (set_history test_agent
        [ system_message "You are a test assistant.";
          {| role := "tool";
             content :=
               Some (error_content
                       "tools.ToolBox.get_current_weather() argument after ** must be a mapping, not list");
             name := Some "get_current_weather";
             tool_call_id := Some "call_3";
             tool_calls := None |} ],
      {| requests := []; tool_invocations := 1 |})).
Proof. vm_compute. reflexivity. Qed.

(** C1, on the code.  The model asks for the weather with arguments that are
    not JSON.  The turn ends on the spot with the generic error response: one
    request was sent, no tool ran, and the history holds the assistant
    message with the tool call followed directly by the error response, with
    no [tool] message for the invocation. *)
Theorem malformed_arguments_end_the_turn :
  process_user_input Json.loads (Tools.get_tool_function sample_runtime)
                     (backend_calls_then_says
                        (function_call "call_1" "get_current_weather" "{location: Paris}")
                        "It is sunny in Paris.")
                     "What is the weather in Paris?" (test_agent, fresh_world)
  = (Ok "I'm sorry, I encountered an error while processing your request.",
     (set_history test_agent
        [ system_message "You are a test assistant.";
          plain_message "user" "What is the weather in Paris?" None;
          {| role := "assistant"; content := None; name := None; tool_call_id := None;
             tool_calls :=
               Some [function_call "call_1" "get_current_weather" "{location: Paris}"] |};
          plain_message "assistant"
            "I'm sorry, I encountered an error while processing your request." None ],
      {| requests := [ [ system_message "You are a test assistant.";
                         plain_message "user" "What is the weather in Paris?" None ] ];
         tool_invocations := 0 |})).
Proof. vm_compute. reflexivity. Qed.

(* ===================================================================== *)
(** ** Appends that bypass [add_message] *)
(* ===================================================================== *)

(** Through [add_message], with a bound of at least one, the history stays
    within the bound plus one and keeps its first entry. *)
Lemma add_message_keeps_the_bound
      (role content : string) (name : option string)
      (a : VoiceAgent) (w : World) (first : Message) (rest : list Message) :
  1 <= max_history a ->
  conversation_history a = first :: rest ->
  exists (a' : VoiceAgent) (rest' : list Message),
    add_message role content name (a, w) = (Ok tt, (a', w))
    /\ conversation_history a' = first :: rest'
    /\ Z.of_nat (List.length (conversation_history a')) <= max_history a + 1
    /\ max_history a' = max_history a
    /\ system_prompt a' = system_prompt a.
Proof.
  intros Hm Hh. rewrite add_message_eq, Hh.
  destruct (trimmed_head (max_history a) first rest (plain_message role content name))
    as (rest' & E).
  eexists _, rest'. split; [reflexivity |]. cbn [conversation_history set_history].
  split; [exact E |]. split; [| split; reflexivity].
  apply trimmed_length. exact Hm.
Qed.

(** The assistant message that carries the tool calls is appended to the
    list directly: a history at the bound goes over it. *)
Lemma direct_append_exceeds_the_bound (message : Message) (a : VoiceAgent) (w : World) :
  Z.of_nat (List.length (conversation_history a)) = max_history a + 1 ->
  exists a' : VoiceAgent,
    append message (a, w) = (Ok tt, (a', w))
    /\ Z.of_nat (List.length (conversation_history a')) = max_history a + 2
    /\ max_history a' = max_history a.
Proof.
  intros Hlen. eexists. split; [reflexivity |]. cbn [conversation_history set_history].
  rewrite length_app. simpl. split; [lia | reflexivity].
Qed.

(** C2, on the code.  An agent with the default bound of 20 holds 21 messages.
    The user asks for the time and the model calls the clock.  The first
    request carries 21 messages; the second, sent after the assistant message
    with the tool call and the tool result were appended without a trim,
    carries 23.  The trim happens only when the final answer goes through
    [add_message]. *)
Theorem untrimmed_history_is_sent_to_the_backend :
  let run :=
    process_user_input Json.loads (Tools.get_tool_function sample_runtime)
                       (backend_calls_then_says
                          (function_call "call_1" "get_current_time" "{}") "It's 2:30 PM.")
                       "What time is it?" (seasoned_agent, fresh_world) in
  max_history seasoned_agent = 20
  /\ List.length (conversation_history seasoned_agent) = 21%nat
  /\ fst run = Ok "It's 2:30 PM."
  /\ map (@List.length Message) (requests (snd (snd run))) = [21%nat; 23%nat]
  /\ List.length (history (snd run)) = 21%nat.
Proof. vm_compute. repeat split. Qed.

(** With a bound of zero the slice is [history[-0:]], the whole history:
    every [add_message] duplicates the first entry in front of it. *)
Lemma zero_bound_grows_the_history :
  add_message "user" "Hi" None (zero_bound_agent, fresh_world)
  = (Ok tt,
     (set_history zero_bound_agent
        [ system_message "You are a test assistant.";
          system_message "You are a test assistant.";
          plain_message "user" "Hi" None ],
      fresh_world)).
Proof. reflexivity. Qed.

(* ===================================================================== *)
(** ** The round trip *)
(* ===================================================================== *)

Lemma init_test_agent :
  __init__ (Some "sk-test") None default_model (Some "You are a test assistant.")
           default_max_history
  = Ok test_agent.
Proof. reflexivity. Qed.

(** C6.  The agent is built with the system prompt "You are a test
    assistant." and the defaults.  The user asks "What time is it?"; the
    backend first requests [get_current_time] with empty arguments, then
    stops with "It's 2:30 PM.".  Whatever the clock reads and whatever id the
    backend gave the call, [process_user_input] returns exactly that text
    after two requests and one tool invocation, and the history is, in order:
    system, user, assistant with the tool call, tool with the serialized
    result, assistant with the text. *)
Theorem round_trip_what_time_is_it (rt : Tools.Runtime) (call_id : string) :
  exists result_str : string,
    Json.dumps
      (PDict [ ("status", PStr "success");
               ("time", PStr (Tools.strftime_HMS (Tools.now rt 0%nat)));
               ("date", PStr (Tools.strftime_Ymd (Tools.now rt 0%nat)));
               ("day_of_week", PStr (Tools.strftime_A (Tools.now rt 0%nat)));
               ("timezone", PStr "local") ])
    = Ok result_str
    /\ process_user_input Json.loads (Tools.get_tool_function rt)
         (backend_calls_then_says (function_call call_id "get_current_time" "{}")
                                  "It's 2:30 PM.")
         "What time is it?" (test_agent, fresh_world)
       = (Ok "It's 2:30 PM.",
          (set_history test_agent
             [ {| role := "system"; content := Some "You are a test assistant.";
                  name := None; tool_call_id := None; tool_calls := None |};
               {| role := "user"; content := Some "What time is it?";
                  name := None; tool_call_id := None; tool_calls := None |};
               {| role := "assistant"; content := None;
                  name := None; tool_call_id := None;
                  tool_calls := Some [function_call call_id "get_current_time" "{}"] |};
               {| role := "tool"; content := Some result_str;
                  name := Some "get_current_time"; tool_call_id := Some call_id;
                  tool_calls := None |};
               {| role := "assistant"; content := Some "It's 2:30 PM.";
                  name := None; tool_call_id := None; tool_calls := None |} ],
           {| requests :=
                [ [ system_message "You are a test assistant.";
                    plain_message "user" "What time is it?" None ];
                  [ system_message "You are a test assistant.";
                    plain_message "user" "What time is it?" None;
                    assistant_tool_call_message
                      {| message_content := None;
                         message_tool_calls :=
                           Some [function_call call_id "get_current_time" "{}"] |}
                      [function_call call_id "get_current_time" "{}"];
                    tool_message (function_call call_id "get_current_time" "{}")
                                 result_str ] ];
              tool_invocations := 1 |})).
Proof.
  eexists. split; [reflexivity |]. vm_compute. reflexivity.
Qed.

(** On the sample machine the tool result reads 14:30:00. *)
Lemma round_trip_tool_result :
  Json.dumps (Tools.get_current_time sample_runtime 0 (PStr "local"))
  = Ok ("{" ++ Json.encode_str "status" ++ ": " ++ Json.encode_str "success" ++ ", "
            ++ Json.encode_str "time" ++ ": " ++ Json.encode_str "14:30:00" ++ ", "
            ++ Json.encode_str "date" ++ ": " ++ Json.encode_str "2026-01-07" ++ ", "
            ++ Json.encode_str "day_of_week" ++ ": " ++ Json.encode_str "Wednesday" ++ ", "
            ++ Json.encode_str "timezone" ++ ": " ++ Json.encode_str "local" ++ "}").
Proof. reflexivity. Qed.

(* ===================================================================== *)
(** ** The disabled system command *)
(* ===================================================================== *)

(** C7.  [execute_system_command] answers every argument with a result whose
    status is [error], in which the argument is only echoed back.  Its body
    reads no service of the runtime; the embedding has no runtime among its
    arguments.  Called by the orchestrator with any keyword arguments, the
    function either gives this refusal or, when the arguments do not fit its
    signature, raises a [TypeError] before its body runs. *)
Theorem execute_system_command_always_refuses
        (rt : Tools.Runtime) (command : pyval) (tick : nat) (function_args : pyval) :
  status_of (Tools.execute_system_command command) = Some (PStr "error")
  /\ Tools.execute_system_command command
     = PDict [ ("status", PStr "error");
               ("message", PStr "System command execution is disabled for security reasons.");
               ("command", command);
               ("note", PStr "To enable this, modify the execute_system_command function and implement proper security controls.") ]
  /\ Tools.get_tool_function rt "execute_system_command"
     = Ok Tools.execute_system_command_fn
  /\ call_kwargs Tools.execute_system_command_fn tick (PDict [("command", command)])
     = Ok (Tools.execute_system_command command)
  /\ match call_kwargs Tools.execute_system_command_fn tick function_args with
     | Ok result => status_of result = Some (PStr "error")
     | Raise e => exists msg, e = TypeError msg
     end.
Proof.
  repeat split.
  destruct function_args as [| b | z | r | s | l | kw | t]; simpl; eauto.
  destruct (Tools.check_keywords _ _ kw) as [[] | e] eqn:Ek; simpl.
  - destruct (Tools.keyword _ _ _ kw) as [v | e] eqn:Ev; simpl; [reflexivity |].
    unfold Tools.keyword in Ev. destruct (dict_get _ kw); inversion Ev. eauto.
  - unfold Tools.check_keywords in Ek. destruct (find _ kw) as [[k v] |]; inversion Ek.
    eauto.
Qed.

(* ===================================================================== *)
(** ** Reset *)
(* ===================================================================== *)

(** C8.  From any state, whatever its history, [reset_conversation] followed
    by [get_conversation_history] gives exactly one message, the system
    message with the current system prompt; the prompt itself is untouched,
    and a second reset changes nothing. *)
Theorem reset_conversation_leaves_the_system_message (st : State) :
  exists st' : State,
    reset_conversation st = (Ok tt, st')
    /\ get_conversation_history st'
       = (Ok [ {| role := "system"; content := Some (system_prompt (fst st'));
                  name := None; tool_call_id := None; tool_calls := None |} ],
          st')
    /\ system_prompt (fst st') = system_prompt (fst st)
    /\ reset_conversation st' = (Ok tt, st').
Proof.
  destruct st as [a w]. eexists. split; [reflexivity |]. repeat split.
Qed.

(* ===================================================================== *)
(** ** The registry and its schemas *)
(* ===================================================================== *)

(** C9.  [TOOL_SCHEMAS] lists exactly five tools, and
    [execute_system_command] is not among them; yet [get_tool_function]
    resolves it.  It also resolves every other name of the class namespace
    and every inherited attribute instead of raising: for [__doc__] it
    returns the docstring, a string, and calling that raises a [TypeError]. *)
Theorem registry_resolves_more_than_it_advertises (rt : Tools.Runtime) :
  map Tools.function_name Tools.TOOL_SCHEMAS
  = [ "get_current_time"; "get_current_weather"; "search_web";
      "get_system_info"; "calculate" ]
  /\ List.length Tools.TOOL_SCHEMAS = 5%nat
  /\ existsb (String.eqb "execute_system_command")
             (map Tools.function_name Tools.TOOL_SCHEMAS) = false
  /\ (exists body,
        Tools.get_tool_function rt "execute_system_command"
        = Ok (PyFunction "tools" "ToolBox.execute_system_command" body))
  /\ Tools.get_tool_function rt "__doc__" = Ok (PyStr Tools.ToolBox_doc)
  /\ (forall tick function_args,
        exists msg,
          call_kwargs (PyStr Tools.ToolBox_doc) tick function_args
          = Raise (TypeError msg))
  /\ Forall (fun name => exists o, Tools.get_tool_function rt name = Ok o)
            (map fst (Tools.ToolBox rt))
  /\ (forall name,
        match Tools.inherited rt name with
        | Some _ => exists o, Tools.get_tool_function rt name = Ok o
        | None => True
        end).
Proof.
  repeat split.
  - eexists. reflexivity.
  - intros tick function_args. destruct function_args; simpl; eauto.
  - cbn [map fst Tools.ToolBox]. repeat constructor; eexists; reflexivity.
  - intros name. destruct (Tools.inherited rt name) as [o |] eqn:Ei; [| exact I].
    unfold Tools.get_tool_function, Tools.getattr_ToolBox.
    destruct (Tools.class_dict_get name (Tools.ToolBox rt)); [eauto |].
    rewrite Ei. eauto.
Qed.

(* ===================================================================== *)
(** ** [search_web] *)
(* ===================================================================== *)

(** C10.  For an integer [num_results], [search_web] returns three results
    when [num_results] is at least 3, none when it is at most 0, and
    [num_results] of them in between, although the schema it is advertised
    with gives [num_results] the bounds 1 and 5: a request for 4 or for 5
    results gets 3. *)
Theorem search_web_returns_at_most_three
        (rt : Tools.Runtime) (query : pyval) (num_results : Z) :
  results_count (Tools.search_web rt query (PInt num_results))
  = Some (if 3 <=? num_results then 3%nat
          else if num_results <=? 0 then 0%nat
          else Z.to_nat num_results)
  /\ results_count (Tools.search_web rt query (PInt 4)) = Some 3%nat
  /\ results_count (Tools.search_web rt query (PInt 5)) = Some 3%nat
  /\ exists schema p,
       In schema Tools.TOOL_SCHEMAS
       /\ Tools.function_name schema = "search_web"
       /\ In p (Tools.properties schema)
       /\ Tools.param_name p = "num_results"
       /\ Tools.param_minimum p = Some 1
       /\ Tools.param_maximum p = Some 5.
Proof.
  split; [| split; [reflexivity | split; [reflexivity |]]].
  - unfold Tools.search_web, Tools.range_min, results_count. simpl.
    rewrite length_map, length_seq.
    destruct (3 <=? num_results) eqn:E3.
    + apply Z.leb_le in E3. f_equal. lia.
    + apply Z.leb_gt in E3. destruct (num_results <=? 0) eqn:E0.
      * apply Z.leb_le in E0. f_equal. lia.
      * apply Z.leb_gt in E0. f_equal. lia.
  - eexists. eexists.
    split; [right; right; left; reflexivity |].
    split; [reflexivity |].
    split; [right; left; reflexivity |]. repeat split.
Qed.

(* ===================================================================== *)
(** ** What a turn leaves alone *)
(* ===================================================================== *)

Lemma respected_refl (st : State) : respected st st.
Proof.
  repeat split; try reflexivity.
  - intros first rest E. eauto.
  - exists []. now rewrite app_nil_r.
Qed.

Lemma respected_trans (st1 st2 st3 : State) :
  respected st1 st2 -> respected st2 st3 -> respected st1 st3.
Proof.
  intros ((K1 & M1 & H1 & P1) & Pin1 & (more1 & R1))
         ((K2 & M2 & H2 & P2) & Pin2 & (more2 & R2)).
  repeat split; try congruence.
  - intros first rest E. destruct (Pin1 _ _ E) as (rest1 & E1). eauto.
  - exists (more1 ++ more2)%list. rewrite R2, R1, app_assoc. reflexivity.
Qed.

Lemma respects_ret {A} (a : A) : respects (ret a).
Proof. intros st o st' E. inversion E; subst. apply respected_refl. Qed.

Lemma respects_lift {A} (o : outcome A) : respects (lift o).
Proof. intros st o' st' E. inversion E; subst. apply respected_refl. Qed.

Lemma respects_bind {A B} (m : M A) (k : A -> M B) :
  respects m -> (forall a, respects (k a)) -> respects (bind m k).
Proof.
  intros Hm Hk st o st' E. unfold bind in E.
  destruct (m st) as [[a | e] st1] eqn:E1.
  - eapply respected_trans; [eapply Hm | eapply Hk]; eassumption.
  - inversion E; subst. eapply Hm; eassumption.
Qed.

Lemma respects_try_except {A} (body : M A) (handler : exn -> M A) :
  respects body -> (forall e, respects (handler e)) -> respects (try_except body handler).
Proof.
  intros Hb Hh st o st' E. unfold try_except in E.
  destruct (body st) as [[a | e] st1] eqn:E1.
  - inversion E; subst. eapply Hb; eassumption.
  - destruct (is_Exception e).
    + eapply respected_trans; [eapply Hb | eapply Hh]; eassumption.
    + inversion E; subst. eapply Hb; eassumption.
Qed.

Lemma respects_for_each {A} (l : list A) (body : A -> M unit) :
  (forall x, respects (body x)) -> respects (for_each l body).
Proof.
  intros Hb. induction l as [| x rest IH]; simpl.
  - apply respects_ret.
  - apply respects_bind; auto.
Qed.

Lemma respects_append (message : Message) : respects (append message).
Proof.
  intros [a w] o st' E. simpl in E. inversion E; subst; clear E.
  repeat split.
  - intros first rest Eh. unfold history in *. simpl in *. rewrite Eh. simpl. eauto.
  - exists []. simpl. now rewrite app_nil_r.
Qed.

Lemma respects_add_message (role content : string) (name : option string) :
  respects (add_message role content name).
Proof.
  intros [a w] o st' E. rewrite add_message_eq in E. inversion E; subst; clear E.
  repeat split.
  - intros first rest Eh. unfold history in *. simpl in *. rewrite Eh.
    apply trimmed_head.
  - exists []. simpl. now rewrite app_nil_r.
Qed.

Section Frame.

Variable json_loads : string -> outcome pyval.
Variable get_tool_function : string -> outcome pyobject.
Variable chat_completions_create : nat -> string -> list Message -> outcome ChatCompletion.

Lemma respects_create_completion :
  respects (create_completion chat_completions_create).
Proof.
  intros [a w] o st' E. unfold create_completion in E. inversion E; subst; clear E.
  repeat split.
  - intros first rest Eh. unfold history in *. simpl in *. eauto.
  - simpl. eauto.
Qed.

Lemma respects_invoke (f : pyobject) (args : pyval) : respects (invoke f args).
Proof.
  intros [a w] o st' E. unfold invoke in E. inversion E; subst; clear E.
  repeat split.
  - intros first rest Eh. unfold history in *. simpl in *. eauto.
  - exists []. simpl. now rewrite app_nil_r.
Qed.

Lemma respects_execute_tool_call (tool_call : ToolCall) :
  respects (execute_tool_call json_loads get_tool_function tool_call).
Proof.
  unfold execute_tool_call.
  apply respects_bind; [apply respects_lift |]. intros function_args.
  apply respects_bind; [| intros; apply respects_append].
  apply respects_try_except; [| intros; apply respects_lift].
  apply respects_bind; [apply respects_lift |]. intros f.
  apply respects_bind; [apply respects_invoke | intros; apply respects_lift].
Qed.

Lemma respects_iteration_body :
  respects (iteration_body json_loads get_tool_function chat_completions_create).
Proof.
  unfold iteration_body.
  apply respects_bind; [apply respects_create_completion |]. intros response.
  apply respects_bind; [apply respects_lift |]. intros choice.
  destruct (_ && _)%bool.
  - apply respects_bind; [apply respects_append |]. intros _.
    apply respects_bind; [| intros; apply respects_ret].
    apply respects_for_each, respects_execute_tool_call.
  - destruct (String.eqb _ _);
      (apply respects_bind; [apply respects_add_message | intros; apply respects_ret]).
Qed.

Lemma respects_iteration :
  respects (iteration json_loads get_tool_function chat_completions_create).
Proof.
  apply respects_try_except; [apply respects_iteration_body |].
  intros e. apply respects_bind; [apply respects_add_message | intros; apply respects_ret].
Qed.

Lemma respects_agentic_loop (remaining : nat) :
  respects (agentic_loop json_loads get_tool_function chat_completions_create remaining).
Proof.
  induction remaining as [| k IH]; simpl.
  - apply respects_ret.
  - apply respects_bind; [apply respects_iteration |].
    intros [| s]; [exact IH | apply respects_ret].
Qed.

Lemma respects_process_user_input (user_input : string) :
  respects (process_user_input json_loads get_tool_function chat_completions_create
                               user_input).
Proof.
  unfold process_user_input.
  apply respects_bind; [apply respects_add_message |]. intros _.
  apply respects_bind; [apply respects_agentic_loop |].
  intros [response |]; [apply respects_ret |].
  apply respects_bind; [apply respects_add_message | intros; apply respects_ret].
Qed.

End Frame.

(** X1.  Whatever the backend, [json.loads], the registry and the tools do,
    and however the turn ends, [process_user_input] leaves the API key, the
    model, the bound and the system prompt as they were, keeps the first
    entry of the history in first position, and only adds to the requests
    already sent. *)
Theorem a_turn_keeps_settings_and_first_entry
        (json_loads : string -> outcome pyval)
        (get_tool_function : string -> outcome pyobject)
        (chat_completions_create : nat -> string -> list Message -> outcome ChatCompletion)
        (user_input : string) (st : State) :
  let st' := snd (process_user_input json_loads get_tool_function
                    chat_completions_create user_input st) in
  same_settings (fst st) (fst st')
  /\ (forall first rest,
        conversation_history (fst st) = first :: rest ->
        exists rest', conversation_history (fst st') = first :: rest')
  /\ exists more, requests (snd st') = (requests (snd st) ++ more)%list.
Proof.
  intros st'.
  destruct (process_user_input json_loads get_tool_function chat_completions_create
              user_input st) as [o st1] eqn:E.
  exact (respects_process_user_input json_loads get_tool_function
           chat_completions_create user_input st o st1 E).
Qed.

(* ===================================================================== *)
(** ** How many requests a turn sends *)
(* ===================================================================== *)

Lemma sends_ret {A} (a : A) : sends 0 0 (ret a).
Proof. intros st o st' E. inversion E; subst. lia. Qed.

Lemma sends_lift {A} (o : outcome A) : sends 0 0 (lift o).
Proof. intros st o' st' E. inversion E; subst. lia. Qed.

(** When the first part may raise, only its own requests are certain. *)
Lemma sends_bind {A B} (l1 h1 h2 : nat) (m : M A) (k : A -> M B) :
  sends l1 h1 m -> (forall a, sends 0 h2 (k a)) -> sends l1 (h1 + h2) (bind m k).
Proof.
  intros Hm Hk st o st' E. unfold bind in E.
  destruct (m st) as [[a | e] st1] eqn:E1.
  - destruct (Hm _ _ _ E1), (Hk a _ _ _ E). lia.
  - inversion E; subst. destruct (Hm _ _ _ E1). lia.
Qed.

(** When the first part returns, the requests of both parts add up. *)
Lemma sends_bind_returns {A B} (l1 h1 l2 h2 : nat) (m : M A) (k : A -> M B) :
  returns m -> sends l1 h1 m -> (forall a, sends l2 h2 (k a)) ->
  sends (l1 + l2) (h1 + h2) (bind m k).
Proof.
  intros Hr Hm Hk st o st' E. unfold bind in E.
  destruct (Hr st) as (a & st1 & E1). rewrite E1 in E.
  destruct (Hm _ _ _ E1), (Hk a _ _ _ E). lia.
Qed.

Lemma sends_try_except {A} (lo hi : nat) (body : M A) (handler : exn -> M A) :
  sends lo hi body -> (forall e, sends 0 0 (handler e)) ->
  sends lo hi (try_except body handler).
Proof.
  intros Hb Hh st o st' E. unfold try_except in E.
  destruct (body st) as [[a | e] st1] eqn:E1.
  - inversion E; subst. eapply Hb; eassumption.
  - destruct (is_Exception e).
    + destruct (Hb _ _ _ E1), (Hh e _ _ _ E). lia.
    + inversion E; subst. eapply Hb; eassumption.
Qed.

Lemma sends_for_each {A} (l : list A) (body : A -> M unit) :
  (forall x, sends 0 0 (body x)) -> sends 0 0 (for_each l body).
Proof.
  intros Hb. induction l as [| x rest IH]; simpl.
  - apply sends_ret.
  - apply (sends_bind 0 0 0); auto.
Qed.

Lemma sends_append (message : Message) : sends 0 0 (append message).
Proof. intros [a w] o st' E. simpl in E. inversion E; subst. simpl. lia. Qed.

Lemma sends_add_message (role content : string) (name : option string) :
  sends 0 0 (add_message role content name).
Proof.
  intros [a w] o st' E. rewrite add_message_eq in E. inversion E; subst. simpl. lia.
Qed.

Section Counting.

Variable json_loads : string -> outcome pyval.
Variable get_tool_function : string -> outcome pyobject.
Variable chat_completions_create : nat -> string -> list Message -> outcome ChatCompletion.

Lemma sends_create_completion :
  sends 1 1 (create_completion chat_completions_create).
Proof.
  intros [a w] o st' E. unfold create_completion in E. inversion E; subst.
  simpl. rewrite length_app. simpl. lia.
Qed.

Lemma sends_invoke (f : pyobject) (args : pyval) : sends 0 0 (invoke f args).
Proof. intros [a w] o st' E. unfold invoke in E. inversion E; subst. simpl. lia. Qed.

Lemma sends_execute_tool_call (tool_call : ToolCall) :
  sends 0 0 (execute_tool_call json_loads get_tool_function tool_call).
Proof.
  unfold execute_tool_call.
  apply (sends_bind 0 0 0); [apply sends_lift |]. intros function_args.
  apply (sends_bind 0 0 0); [| intros; apply sends_append].
  apply sends_try_except; [| intros; apply sends_lift].
  apply (sends_bind 0 0 0); [apply sends_lift |]. intros f.
  apply (sends_bind 0 0 0); [apply sends_invoke | intros; apply sends_lift].
Qed.

(** One turn of the loop sends exactly one request, however it ends. *)
Lemma sends_iteration :
  sends 1 1 (iteration json_loads get_tool_function chat_completions_create).
Proof.
  apply sends_try_except.
  - unfold iteration_body.
    apply (sends_bind 1 1 0); [apply sends_create_completion |]. intros response.
    apply (sends_bind 0 0 0); [apply sends_lift |]. intros choice.
    destruct (_ && _)%bool.
    + apply (sends_bind 0 0 0); [apply sends_append |]. intros _.
      apply (sends_bind 0 0 0); [| intros; apply sends_ret].
      apply sends_for_each, sends_execute_tool_call.
    + destruct (String.eqb _ _);
        (apply (sends_bind 0 0 0); [apply sends_add_message | intros; apply sends_ret]).
  - intros e. apply (sends_bind 0 0 0); [apply sends_add_message | intros; apply sends_ret].
Qed.

Lemma sends_agentic_loop (remaining : nat) :
  sends (Nat.min 1 remaining) remaining
        (agentic_loop json_loads get_tool_function chat_completions_create remaining).
Proof.
  induction remaining as [| k IH]; simpl agentic_loop.
  - apply sends_ret.
  - intros st o st' E. unfold bind in E.
    destruct (iteration json_loads get_tool_function chat_completions_create st)
      as [[f | e] st1] eqn:E1.
    + destruct (sends_iteration _ _ _ E1) as [L1 U1]. destruct f as [| s].
      * destruct (IH _ _ _ E). simpl Nat.min. lia.
      * inversion E; subst. simpl Nat.min. lia.
    + inversion E; subst. destruct (sends_iteration _ _ _ E1). simpl Nat.min. lia.
Qed.

Lemma sends_process_user_input (user_input : string) :
  sends 1 5 (process_user_input json_loads get_tool_function chat_completions_create
                                user_input).
Proof.
  unfold process_user_input.
  apply (sends_bind_returns 0 0 1 5);
    [apply returns_add_message | apply sends_add_message |]. intros _.
  apply (sends_bind 1 5 0); [exact (sends_agentic_loop max_iterations) |].
  intros [response |]; [apply sends_ret |].
  apply (sends_bind 0 0 0); [apply sends_add_message | intros; apply sends_ret].
Qed.

End Counting.

(** X2.  Whatever the backend, [json.loads], the registry and the tools do,
    and however the turn ends, one call of [process_user_input] sends at least
    one and at most five requests to the backend. *)
Theorem a_turn_sends_one_to_five_requests
        (json_loads : string -> outcome pyval)
        (get_tool_function : string -> outcome pyobject)
        (chat_completions_create : nat -> string -> list Message -> outcome ChatCompletion)
        (user_input : string) (st : State) :
  let st' := snd (process_user_input json_loads get_tool_function
                    chat_completions_create user_input st) in
  (List.length (requests (snd st)) + 1 <= List.length (requests (snd st')))%nat
  /\ (List.length (requests (snd st')) <= List.length (requests (snd st)) + 5)%nat.
Proof.
  intros st'.
  destruct (process_user_input json_loads get_tool_function chat_completions_create
              user_input st) as [o st1] eqn:E.
  exact (sends_process_user_input json_loads get_tool_function
           chat_completions_create user_input st o st1 E).
Qed.

(* ===================================================================== *)
(** ** A turn that returns has trimmed the history *)
(* ===================================================================== *)

Lemma add_message_within_bound (role content : string) (name : option string)
      (st st' : State) (o : outcome unit) :
  1 <= max_history (fst st) ->
  add_message role content name st = (o, st') ->
  within_bound st'.
Proof.
  destruct st as [a w]. intros Hm E. rewrite add_message_eq in E.
  inversion E; subst; clear E. unfold within_bound, history. simpl.
  apply trimmed_length. exact Hm.
Qed.

Section Bounded.

Variable json_loads : string -> outcome pyval.
Variable get_tool_function : string -> outcome pyobject.
Variable chat_completions_create : nat -> string -> list Message -> outcome ChatCompletion.

(** The [try] block returns only through [add_message]. *)
Lemma iteration_body_return_bounded (st st' : State) (s : string) :
  1 <= max_history (fst st) ->
  iteration_body json_loads get_tool_function chat_completions_create st
  = (Ok (Return s), st') ->
  within_bound st'.
Proof.
  destruct st as [a w]. intros Hm E. unfold iteration_body in E.
  unfold bind at 1 in E. unfold create_completion in E.
  destruct (chat_completions_create _ _ _) as [response | e]; [| discriminate].
  unfold bind at 1 in E. unfold lift at 1 in E.
  destruct (index0 (choices response)) as [choice | e]; [| discriminate].
  destruct (_ && _)%bool.
  - unfold bind at 1 in E. cbn [append] in E.
    unfold bind at 1 in E.
    destruct (for_each _ _ _) as [[[] | e] st1]; [| discriminate].
    unfold ret in E. discriminate.
  - destruct (String.eqb _ _);
      (unfold bind at 1 in E;
       match type of E with
       | context [add_message ?r ?c ?n ?st0] =>
           destruct (add_message r c n st0) as [[[] | e] st1] eqn:Ea;
             [| discriminate];
           unfold ret in E; inversion E; subst;
           eapply add_message_within_bound; [| exact Ea]; exact Hm
       end).
Qed.

Lemma iteration_return_bounded (st st' : State) (s : string) :
  1 <= max_history (fst st) ->
  iteration json_loads get_tool_function chat_completions_create st
  = (Ok (Return s), st') ->
  within_bound st'.
Proof.
  intros Hm E. unfold iteration, try_except in E.
  destruct (iteration_body json_loads get_tool_function chat_completions_create st)
    as [[f | e] st1] eqn:Eb.
  - inversion E; subst. eapply iteration_body_return_bounded; eassumption.
  - destruct (is_Exception e); [| discriminate].
    destruct (respects_iteration_body json_loads get_tool_function
                chat_completions_create st _ st1 Eb) as ((_ & _ & HM & _) & _).
    unfold bind at 1 in E.
    destruct (add_message "assistant" error_response None st1) as [[[] | e1] st2] eqn:Ea;
      [| discriminate].
    unfold ret in E. inversion E; subst.
    eapply add_message_within_bound; [| exact Ea]. rewrite HM. exact Hm.
Qed.

Lemma agentic_loop_return_bounded (remaining : nat) (st st' : State) (s : string) :
  1 <= max_history (fst st) ->
  agentic_loop json_loads get_tool_function chat_completions_create remaining st
  = (Ok (Some s), st') ->
  within_bound st'.
Proof.
  revert st. induction remaining as [| k IH]; intros st Hm E; simpl in E.
  - discriminate.
  - unfold bind at 1 in E.
    destruct (iteration json_loads get_tool_function chat_completions_create st)
      as [[f | e] st1] eqn:Ei; [| discriminate].
    destruct f as [| s1].
    + destruct (respects_iteration json_loads get_tool_function
                  chat_completions_create st _ st1 Ei) as ((_ & _ & HM & _) & _).
      apply (IH st1); [rewrite HM; exact Hm | exact E].
    + unfold ret in E. inversion E; subst.
      eapply iteration_return_bounded; eassumption.
Qed.

Lemma process_user_input_bounded (user_input : string) (st st' : State) (s : string) :
  1 <= max_history (fst st) ->
  process_user_input json_loads get_tool_function chat_completions_create user_input st
  = (Ok s, st') ->
  within_bound st'.
Proof.
  intros Hm E. unfold process_user_input in E.
  unfold bind at 1 in E.
  destruct (add_message "user" user_input None st) as [[[] | e] st1] eqn:Ea;
    [| discriminate].
  destruct (respects_add_message "user" user_input None st _ st1 Ea)
    as ((_ & _ & HM1 & _) & _).
  unfold bind at 1 in E.
  destruct (agentic_loop json_loads get_tool_function chat_completions_create
              max_iterations st1) as [[[response |] | e] st2] eqn:El; [| | discriminate].
  - unfold ret in E. inversion E; subst.
    eapply agentic_loop_return_bounded; [| exact El]. rewrite HM1. exact Hm.
  - destruct (respects_agentic_loop json_loads get_tool_function
                chat_completions_create max_iterations st1 _ st2 El)
      as ((_ & _ & HM2 & _) & _).
    unfold bind at 1 in E.
    destruct (add_message "assistant" timeout_response None st2) as [[[] | e] st3] eqn:Ea2;
      [| discriminate].
    unfold ret in E. inversion E; subst.
    eapply add_message_within_bound; [| exact Ea2]. rewrite HM2, HM1. exact Hm.
Qed.

End Bounded.

(** X3.  With a bound of at least one, whenever [process_user_input] returns,
    the history it leaves holds at most [max_history + 1] messages, whatever
    its length was before and whatever was appended during the turn: every
    return goes through [add_message]. *)
Theorem a_returned_turn_leaves_a_trimmed_history
        (json_loads : string -> outcome pyval)
        (get_tool_function : string -> outcome pyobject)
        (chat_completions_create : nat -> string -> list Message -> outcome ChatCompletion)
        (user_input : string) (a : VoiceAgent) (w : World) :
  1 <= max_history a ->
  match process_user_input json_loads get_tool_function chat_completions_create
                           user_input (a, w) with
  | (Ok _, (a', _)) =>
      Z.of_nat (List.length (conversation_history a')) <= max_history a + 1
      /\ max_history a' = max_history a
  | (Raise _, _) => True
  end.
Proof.
  intros Hm.
  destruct (process_user_input json_loads get_tool_function chat_completions_create
              user_input (a, w)) as [[s | e] [a' w']] eqn:E; [| exact I].
  destruct (respects_process_user_input json_loads get_tool_function
              chat_completions_create user_input (a, w) _ (a', w') E)
    as ((_ & _ & HM & _) & _).
  split; [| exact HM].
  pose proof (process_user_input_bounded json_loads get_tool_function
                chat_completions_create user_input (a, w) (a', w') s Hm E) as Hb.
  unfold within_bound, history in Hb. simpl in Hb, HM. rewrite <- HM. exact Hb.
Qed.

(** X3, an instance: the agent that holds 21 messages, asked for the time. *)
Lemma a_returned_turn_leaves_a_trimmed_history_witness :
  match process_user_input Json.loads (Tools.get_tool_function sample_runtime)
          (backend_calls_then_says (function_call "call_1" "get_current_time" "{}")
                                   "It's 2:30 PM.")
          "What time is it?" (seasoned_agent, fresh_world) with
  | (Ok _, (a', _)) =>
      Z.of_nat (List.length (conversation_history a')) <= max_history seasoned_agent + 1
      /\ max_history a' = max_history seasoned_agent
  | (Raise _, _) => True
  end.
Proof.
  apply a_returned_turn_leaves_a_trimmed_history. vm_compute. discriminate.
Defined.

(* ===================================================================== *)
(** ** The sliding window of [add_message] *)
(* ===================================================================== *)

Lemma skipn_snoc {A} (k : nat) (l : list A) (x : A) :
  (k <= List.length l)%nat -> skipn k (l ++ [x]) = (skipn k l ++ [x])%list.
Proof.
  intros Hk. rewrite skipn_app.
  replace (k - List.length l)%nat with 0%nat by lia. reflexivity.
Qed.

(** X4.  With a bound [max_history] of at least one and a history that starts
    with [first], [add_message] keeps [first] in first position, puts the new
    message last, and keeps between them the most recent earlier entries, as
    many as fit: the oldest [length rest + 1 - max_history] entries after the
    first are dropped.  Nothing else of the agent changes. *)
Theorem add_message_keeps_the_most_recent
        (role content : string) (name : option string)
        (a : VoiceAgent) (w : World) (first : Message) (rest : list Message) :
  1 <= max_history a ->
  conversation_history a = first :: rest ->
  add_message role content name (a, w)
  = (Ok tt,
     (set_history a
        (first
           :: skipn (List.length rest + 1 - Z.to_nat (max_history a)) rest
           ++ [ {| role := role; content := Some content;
                   name := if truthy_str name then name else None;
                   tool_call_id := None; tool_calls := None |} ])%list,
      w)).
Proof.
  intros Hm Hh. rewrite add_message_eq, Hh. unfold trimmed, plain_message.
  set (msg := {| role := role; content := Some content;
                 name := if truthy_str name then name else None;
                 tool_call_id := None; tool_calls := None |}).
  assert (Hlen : List.length ((first :: rest) ++ [msg])%list = S (S (List.length rest))).
  { simpl. rewrite length_app. simpl. lia. }
  rewrite Hlen.
  destruct (Z.of_nat (S (S (List.length rest))) >? max_history a + 1) eqn:E.
  - rewrite Z.gtb_ltb in E. apply Z.ltb_lt in E.
    cbn [app]. unfold slice_from.
    assert (Eneg : (- max_history a <? 0) = true) by (apply Z.ltb_lt; lia).
    rewrite Eneg.
    change (List.length (first :: rest ++ [msg])%list)
      with (S (List.length (rest ++ [msg])%list)).
    rewrite length_app. cbn [List.length].
    replace (Z.to_nat (Z.max 0 (Z.of_nat (S (List.length rest + 1)) + - max_history a)))
      with (S (List.length rest + 1 - Z.to_nat (max_history a))) by lia.
    cbn [skipn]. rewrite skipn_snoc by lia. reflexivity.
  - rewrite Z.gtb_ltb in E. apply Z.ltb_ge in E.
    replace (List.length rest + 1 - Z.to_nat (max_history a))%nat with 0%nat by lia.
    reflexivity.
Qed.

(** X4, an instance: the agent that holds 21 messages, bound 20. *)
Lemma add_message_keeps_the_most_recent_witness :
  add_message "user" "What time is it?" None (seasoned_agent, fresh_world)
  = (Ok tt,
     (set_history seasoned_agent
        (system_message "You are a test assistant."
           :: skipn (List.length earlier_exchanges + 1
                     - Z.to_nat (max_history seasoned_agent)) earlier_exchanges
           ++ [ {| role := "user"; content := Some "What time is it?";
                   name := None; tool_call_id := None; tool_calls := None |} ])%list,
      fresh_world)).
Proof.
  apply add_message_keeps_the_most_recent.
  - vm_compute. discriminate.
  - reflexivity.
Defined.

(** X5.  With a bound of zero the slice [history[-0:]] is the whole history:
    [add_message] puts a second copy of the first entry in front and drops
    nothing, so the history grows by two entries at every call. *)
Theorem add_message_with_zero_bound_duplicates_the_first_entry
        (role content : string) (name : option string)
        (a : VoiceAgent) (w : World) (first : Message) (rest : list Message) :
  max_history a = 0 ->
  conversation_history a = first :: rest ->
  add_message role content name (a, w)
  = (Ok tt,
     (set_history a
        (first :: first :: rest ++ [plain_message role content name])%list,
      w))
  /\ List.length (first :: first :: rest ++ [plain_message role content name])%list
     = (List.length (conversation_history a) + 2)%nat.
Proof.
  intros Hm Hh. split.
  - rewrite add_message_eq, Hh, Hm. unfold trimmed.
    assert (E : (Z.of_nat (List.length ((first :: rest)
                   ++ [plain_message role content name])%list) >? 0 + 1) = true).
    { rewrite Z.gtb_ltb. apply Z.ltb_lt. simpl List.length. rewrite length_app.
      simpl. lia. }
    rewrite E. cbn [app]. rewrite slice_from_zero. reflexivity.
  - rewrite Hh. simpl. rewrite length_app. simpl. lia.
Qed.

(** X5, an instance: an agent built with [max_history=0]. *)
Lemma add_message_with_zero_bound_duplicates_the_first_entry_witness :
  add_message "user" "Hi" None (zero_bound_agent, fresh_world)
  = (Ok tt,
     (set_history zero_bound_agent
        (system_message "You are a test assistant."
           :: system_message "You are a test assistant."
           :: [] ++ [plain_message "user" "Hi" None])%list,
      fresh_world))
  /\ List.length (system_message "You are a test assistant."
                    :: system_message "You are a test assistant."
                    :: [] ++ [plain_message "user" "Hi" None])%list
     = (List.length (conversation_history zero_bound_agent) + 2)%nat.
Proof.
  apply add_message_with_zero_bound_duplicates_the_first_entry; reflexivity.
Defined.

(* ===================================================================== *)
(** ** Construction and the system prompt *)
(* ===================================================================== *)

(** X6.  [VoiceAgent(...)] raises [ValueError] exactly when neither the
    argument nor the environment gives a non-empty API key.  Otherwise the
    argument is used when it is non-empty and the environment when it is not;
    the system prompt is the argument, or the default prompt when the
    argument is missing or empty; the history is the single system message
    with that prompt; and the bound is taken as given, zero and negative
    values included. *)
Theorem init_needs_a_key_and_starts_with_the_system_message
        (key getenv : option string) (model_name : string)
        (prompt : option string) (bound : Z) :
  match __init__ key getenv model_name prompt bound with
  | Ok a =>
      Some (api_key a) = (if truthy_str key then key else getenv)
      /\ api_key a <> EmptyString
      /\ model a = model_name
      /\ max_history a = bound
      /\ system_prompt a
         = match prompt with
           | Some EmptyString | None => default_system_prompt
           | Some p => p
           end
      /\ conversation_history a
         = [ {| role := "system"; content := Some (system_prompt a);
                name := None; tool_call_id := None; tool_calls := None |} ]
  | Raise e =>
      e = ValueError "OpenAI API key not found. Set OPENAI_API_KEY environment variable."
      /\ (key = None \/ key = Some EmptyString)
      /\ (getenv = None \/ getenv = Some EmptyString)
  end.
Proof.
  unfold __init__.
  destruct key as [[| c k] |]; cbn [truthy_str].
  - destruct getenv as [[| c e] |]; cbn [truthy_str]; repeat split; auto;
      try discriminate; destruct prompt as [[| ? ?] |]; reflexivity.
  - repeat split; try discriminate; destruct prompt as [[| ? ?] |]; reflexivity.
  - destruct getenv as [[| c e] |]; cbn [truthy_str]; repeat split; auto;
      try discriminate; destruct prompt as [[| ? ?] |]; reflexivity.
Qed.

(** X7.  On a history that is not empty, [set_system_prompt] replaces the
    entry at position 0 by the system message of the new prompt and keeps
    every other entry, the length and the bound; a later
    [reset_conversation] goes back to the single system message of the new
    prompt, and a later [add_message] keeps the new system message in first
    position. *)
Theorem set_system_prompt_replaces_position_zero
        (prompt : string) (a : VoiceAgent) (w : World)
        (old : Message) (rest : list Message) :
  conversation_history a = old :: rest ->
  exists a' : VoiceAgent,
    set_system_prompt prompt (a, w) = (Ok tt, (a', w))
    /\ conversation_history a'
       = {| role := "system"; content := Some prompt;
            name := None; tool_call_id := None; tool_calls := None |} :: rest
    /\ List.length (conversation_history a') = List.length (conversation_history a)
    /\ system_prompt a' = prompt
    /\ max_history a' = max_history a
    /\ (bind (set_system_prompt prompt) (fun _ =>
        bind reset_conversation (fun _ => get_conversation_history))) (a, w)
       = (Ok [ {| role := "system"; content := Some prompt;
                  name := None; tool_call_id := None; tool_calls := None |} ],
          (set_history a' [system_message prompt], w))
    /\ forall role content name,
         exists rest',
           history (snd (add_message role content name (a', w)))
           = {| role := "system"; content := Some prompt;
                name := None; tool_call_id := None; tool_calls := None |} :: rest'.
Proof.
  intros Hh. eexists. unfold set_system_prompt. rewrite Hh.
  split; [reflexivity |]. cbn [conversation_history set_history].
  split; [reflexivity |]. split; [reflexivity |]. split; [reflexivity |].
  split; [reflexivity |]. split.
  - unfold bind, set_system_prompt. rewrite Hh. reflexivity.
  - intros role content name. rewrite add_message_eq.
    unfold history. cbn [fst snd conversation_history set_history].
    apply trimmed_head.
Qed.

(** X7, an instance: the agent that holds 21 messages gets a new prompt. *)
Lemma set_system_prompt_replaces_position_zero_witness :
  exists a' : VoiceAgent,
    set_system_prompt "Answer in French." (seasoned_agent, fresh_world)
    = (Ok tt, (a', fresh_world))
    /\ conversation_history a'
       = {| role := "system"; content := Some "Answer in French.";
            name := None; tool_call_id := None; tool_calls := None |}
         :: earlier_exchanges
    /\ List.length (conversation_history a')
       = List.length (conversation_history seasoned_agent)
    /\ system_prompt a' = "Answer in French."
    /\ max_history a' = max_history seasoned_agent
    /\ (bind (set_system_prompt "Answer in French.") (fun _ =>
        bind reset_conversation (fun _ => get_conversation_history)))
         (seasoned_agent, fresh_world)
       = (Ok [ {| role := "system"; content := Some "Answer in French.";
                  name := None; tool_call_id := None; tool_calls := None |} ],
          (set_history a' [system_message "Answer in French."], fresh_world))
    /\ forall role content name,
         exists rest',
           history (snd (add_message role content name (a', fresh_world)))
           = {| role := "system"; content := Some "Answer in French.";
                name := None; tool_call_id := None; tool_calls := None |} :: rest'.
Proof.
  apply (set_system_prompt_replaces_position_zero
           "Answer in French." seasoned_agent fresh_world
           (system_message "You are a test assistant.") earlier_exchanges).
  reflexivity.
Defined.

(* ===================================================================== *)
(** ** Turns that the first answer settles *)
(* ===================================================================== *)

Section FirstAnswer.

Variable json_loads : string -> outcome pyval.
Variable get_tool_function : string -> outcome pyobject.
Variable chat_completions_create : nat -> string -> list Message -> outcome ChatCompletion.

(** When the first turn of the loop returns, so does the call. *)
Lemma first_iteration_settles (user_input : string) (a : VoiceAgent) (w : World)
      (s : string) (st' : State) :
  iteration json_loads get_tool_function chat_completions_create
            (after_add a "user" user_input, w)
  = (Ok (Return s), st') ->
  process_user_input json_loads get_tool_function chat_completions_create
                     user_input (a, w)
  = (Ok s, st').
Proof.
  intros E. unfold process_user_input. unfold bind at 1. rewrite add_message_eq.
  fold (after_add a "user" user_input).
  unfold bind at 1. change max_iterations with 5%nat. cbn [agentic_loop].
  unfold bind at 1. rewrite E. reflexivity.
Qed.

Lemma iteration_on_stop (a : VoiceAgent) (w : World)
      (am : ChatCompletionMessage) (others : list Choice) :
  chat_completions_create (List.length (requests w)) (model a) (conversation_history a)
  = Ok {| choices := {| message := am; finish_reason := "stop" |} :: others |} ->
  iteration json_loads get_tool_function chat_completions_create (a, w)
  = (Ok (Return (str_or (message_content am) not_sure_response)),
     (after_add a "assistant" (str_or (message_content am) not_sure_response),
      sent w (conversation_history a))).
Proof.
  intros Hresp. unfold iteration, try_except, iteration_body.
  unfold bind at 1. unfold create_completion. rewrite Hresp.
  unfold bind at 1. cbn [lift index0 choices message finish_reason].
  cbn [String.eqb Ascii.eqb Bool.eqb andb].
  unfold bind at 1. rewrite add_message_eq. reflexivity.
Qed.

Lemma iteration_on_other_reason (a : VoiceAgent) (w : World)
      (am : ChatCompletionMessage) (reason : string) (others : list Choice) :
  chat_completions_create (List.length (requests w)) (model a) (conversation_history a)
  = Ok {| choices := {| message := am; finish_reason := reason |} :: others |} ->
  reason <> "stop" ->
  reason <> "tool_calls" \/ message_tool_calls am = None \/ message_tool_calls am = Some [] ->
  iteration json_loads get_tool_function chat_completions_create (a, w)
  = (Ok (Return fallback),
     (after_add a "assistant" fallback, sent w (conversation_history a))).
Proof.
  intros Hresp Hstop Hnot. unfold iteration, try_except, iteration_body.
  unfold bind at 1. unfold create_completion. rewrite Hresp.
  unfold bind at 1. cbn [lift index0 choices message finish_reason].
  assert (Hcond : (String.eqb reason "tool_calls"
                   && truthy_list (message_tool_calls am))%bool = false).
  { destruct Hnot as [H | [H | H]].
    - apply String.eqb_neq in H. now rewrite H.
    - rewrite H. apply andb_false_r.
    - rewrite H. apply andb_false_r. }
  rewrite Hcond. apply String.eqb_neq in Hstop. rewrite Hstop.
  unfold bind at 1. rewrite add_message_eq. reflexivity.
Qed.

Lemma iteration_on_failure (a : VoiceAgent) (w : World) :
  (exists e, chat_completions_create (List.length (requests w)) (model a)
                                     (conversation_history a) = Raise e
             /\ is_Exception e = true)
  \/ chat_completions_create (List.length (requests w)) (model a) (conversation_history a)
     = Ok {| choices := [] |} ->
  iteration json_loads get_tool_function chat_completions_create (a, w)
  = (Ok (Return error_response),
     (after_add a "assistant" error_response, sent w (conversation_history a))).
Proof.
  intros [(e & Hresp & He) | Hresp]; unfold iteration, try_except, iteration_body;
    unfold bind at 1; unfold create_completion; rewrite Hresp.
  - rewrite He. unfold bind at 1. rewrite add_message_eq. reflexivity.
  - unfold bind at 1. cbn [lift index0 choices is_Exception IndexError].
    unfold bind at 1. rewrite add_message_eq. reflexivity.
Qed.

End FirstAnswer.

(** X8.  When the first answer of the backend has the finish reason [stop],
    the turn ends there: one request was sent, the answer's text is returned
    and recorded as the assistant message, and a missing or empty text is
    replaced by the sentence "I'm not sure how to respond to that.".  Tool
    calls attached to such an answer are ignored. *)
Theorem a_stop_answer_is_returned_or_replaced
        (json_loads : string -> outcome pyval)
        (get_tool_function : string -> outcome pyobject)
        (chat_completions_create : nat -> string -> list Message -> outcome ChatCompletion)
        (user_input : string) (a : VoiceAgent) (w : World)
        (am : ChatCompletionMessage) (others : list Choice) :
  chat_completions_create (List.length (requests w)) (model a)
                          (conversation_history (after_add a "user" user_input))
  = Ok {| choices := {| message := am; finish_reason := "stop" |} :: others |} ->
  let answer :=
    match message_content am with
    | Some EmptyString | None => "I'm not sure how to respond to that."
    | Some text => text
    end in
  process_user_input json_loads get_tool_function chat_completions_create
                     user_input (a, w)
  = (Ok answer,
     (after_add (after_add a "user" user_input) "assistant" answer,
      {| requests :=
           (requests w ++ [conversation_history (after_add a "user" user_input)])%list;
         tool_invocations := tool_invocations w |})).
Proof.
  intros Hresp answer. apply first_iteration_settles.
  rewrite (iteration_on_stop json_loads get_tool_function chat_completions_create
             (after_add a "user" user_input) w am others Hresp).
  unfold answer. destruct (message_content am) as [[| c t] |]; reflexivity.
Qed.

(** X8, an instance: the backend stops with no text at all. *)
Lemma a_stop_answer_is_returned_or_replaced_witness :
  let answer :=
    match message_content {| message_content := None; message_tool_calls := None |} with
    | Some EmptyString | None => "I'm not sure how to respond to that."
    | Some text => text
    end in
  process_user_input Json.loads (Tools.get_tool_function sample_runtime)
                     (fun _ _ _ => Ok (one_choice None None "stop"))
                     "Hm" (test_agent, fresh_world)
  = (Ok answer,
     (after_add (after_add test_agent "user" "Hm") "assistant" answer,
      {| requests :=
           (requests fresh_world
              ++ [conversation_history (after_add test_agent "user" "Hm")])%list;
         tool_invocations := tool_invocations fresh_world |})).
Proof.
  apply (a_stop_answer_is_returned_or_replaced
           Json.loads (Tools.get_tool_function sample_runtime)
           (fun _ _ _ => Ok (one_choice None None "stop"))
           "Hm" test_agent fresh_world
           {| message_content := None; message_tool_calls := None |} []).
  reflexivity.
Defined.

(** X9.  When the first answer of the backend has a finish reason that is
    neither [stop] nor a [tool_calls] that carries invocations ([length],
    [content_filter], a [tool_calls] with none), the turn ends there with the
    fixed apology "I apologize, but I encountered an issue processing your
    request.": whatever text the answer carried is neither returned nor
    recorded, and one request was sent. *)
Theorem an_unexpected_finish_reason_discards_the_answer
        (json_loads : string -> outcome pyval)
        (get_tool_function : string -> outcome pyobject)
        (chat_completions_create : nat -> string -> list Message -> outcome ChatCompletion)
        (user_input : string) (a : VoiceAgent) (w : World)
        (am : ChatCompletionMessage) (reason : string) (others : list Choice) :
  chat_completions_create (List.length (requests w)) (model a)
                          (conversation_history (after_add a "user" user_input))
  = Ok {| choices := {| message := am; finish_reason := reason |} :: others |} ->
  reason <> "stop" ->
  reason <> "tool_calls" \/ message_tool_calls am = None \/ message_tool_calls am = Some [] ->
  process_user_input json_loads get_tool_function chat_completions_create
                     user_input (a, w)
  = (Ok "I apologize, but I encountered an issue processing your request.",
     (after_add (after_add a "user" user_input) "assistant"
                "I apologize, but I encountered an issue processing your request.",
      {| requests :=
           (requests w ++ [conversation_history (after_add a "user" user_input)])%list;
         tool_invocations := tool_invocations w |})).
Proof.
  intros Hresp Hstop Hnot. apply first_iteration_settles.
  exact (iteration_on_other_reason json_loads get_tool_function chat_completions_create
           (after_add a "user" user_input) w am reason others Hresp Hstop Hnot).
Qed.

(** X9, an instance: the answer was cut at the length limit. *)
Lemma an_unexpected_finish_reason_discards_the_answer_witness :
  process_user_input Json.loads (Tools.get_tool_function sample_runtime)
                     (fun _ _ _ => Ok (one_choice (Some "Once upon a time") None "length"))
                     "Tell me a story" (test_agent, fresh_world)
  = (Ok "I apologize, but I encountered an issue processing your request.",
     (after_add (after_add test_agent "user" "Tell me a story") "assistant"
                "I apologize, but I encountered an issue processing your request.",
      {| requests :=
           (requests fresh_world
              ++ [conversation_history (after_add test_agent "user" "Tell me a story")])%list;
         tool_invocations := tool_invocations fresh_world |})).
Proof.
  apply (an_unexpected_finish_reason_discards_the_answer
           Json.loads (Tools.get_tool_function sample_runtime)
           (fun _ _ _ => Ok (one_choice (Some "Once upon a time") None "length"))
           "Tell me a story" test_agent fresh_world
           {| message_content := Some "Once upon a time"; message_tool_calls := None |}
           "length" []).
  - reflexivity.
  - discriminate.
  - left. discriminate.
Defined.

(** X10.  When the first request to the backend raises an [Exception], or
    its answer has no choice at all, the turn ends there with the fixed
    sentence "I'm sorry, I encountered an error while processing your
    request.", recorded as the assistant message: the request is not sent
    again. *)
Theorem a_failed_request_is_not_retried
        (json_loads : string -> outcome pyval)
        (get_tool_function : string -> outcome pyobject)
        (chat_completions_create : nat -> string -> list Message -> outcome ChatCompletion)
        (user_input : string) (a : VoiceAgent) (w : World) :
  (exists e,
      chat_completions_create (List.length (requests w)) (model a)
                              (conversation_history (after_add a "user" user_input))
      = Raise e
      /\ is_Exception e = true)
  \/ chat_completions_create (List.length (requests w)) (model a)
                             (conversation_history (after_add a "user" user_input))
     = Ok {| choices := [] |} ->
  process_user_input json_loads get_tool_function chat_completions_create
                     user_input (a, w)
  = (Ok "I'm sorry, I encountered an error while processing your request.",
     (after_add (after_add a "user" user_input) "assistant"
                "I'm sorry, I encountered an error while processing your request.",
      {| requests :=
           (requests w ++ [conversation_history (after_add a "user" user_input)])%list;
         tool_invocations := tool_invocations w |})).
Proof.
  intros Hfail. apply first_iteration_settles.
  exact (iteration_on_failure json_loads get_tool_function chat_completions_create
           (after_add a "user" user_input) w Hfail).
Qed.

(** X10, an instance: the connection to the backend times out. *)
Lemma a_failed_request_is_not_retried_witness :
  process_user_input Json.loads (Tools.get_tool_function sample_runtime)
                     (fun _ _ _ => Raise (Exception "APITimeoutError" "Request timed out."))
                     "Hi" (test_agent, fresh_world)
  = (Ok "I'm sorry, I encountered an error while processing your request.",
     (after_add (after_add test_agent "user" "Hi") "assistant"
                "I'm sorry, I encountered an error while processing your request.",
      {| requests :=
           (requests fresh_world
              ++ [conversation_history (after_add test_agent "user" "Hi")])%list;
         tool_invocations := tool_invocations fresh_world |})).
Proof.
  apply (a_failed_request_is_not_retried
           Json.loads (Tools.get_tool_function sample_runtime)
           (fun _ _ _ => Raise (Exception "APITimeoutError" "Request timed out."))
           "Hi" test_agent fresh_world).
  left. eexists. split; reflexivity.
Defined.

(* ===================================================================== *)
(** ** What an iteration writes for its invocations *)
(* ===================================================================== *)

Lemma tool_messages_ids (tcs : list ToolCall) (contents : list string) :
  List.length contents = List.length tcs ->
  map tool_call_id (tool_messages tcs contents) = map (fun tc => Some (tc_id tc)) tcs
  /\ map name (tool_messages tcs contents)
     = map (fun tc => Some (tc_function_name tc)) tcs
  /\ Forall (fun m => role m = "tool") (tool_messages tcs contents).
Proof.
  revert contents. induction tcs as [| tc rest IH]; intros [| c contents] Hlen;
    simpl in Hlen; try discriminate.
  - repeat split; constructor.
  - destruct (IH contents) as (Hid & Hname & Hrole); [lia |].
    unfold tool_messages in *. simpl. rewrite Hid, Hname.
    repeat split. constructor; [reflexivity | exact Hrole].
Qed.

(** X11.  When the backend asks for tool calls whose arguments all
    deserialize, and the registry and the tools raise nothing outside
    [Exception], the iteration ends in [continue] after one request: the
    history has grown by the assistant message that carries the calls,
    followed by exactly one [tool] message per invocation, in the order of the
    invocations, each with the id and the name of its invocation, whether the
    invocation succeeded or failed. *)
Theorem an_iteration_answers_every_invocation_in_order
        (json_loads : string -> outcome pyval)
        (get_tool_function : string -> outcome pyobject)
        (chat_completions_create : nat -> string -> list Message -> outcome ChatCompletion)
        (a : VoiceAgent) (w : World)
        (am : ChatCompletionMessage) (others : list Choice)
        (first : ToolCall) (more : list ToolCall) :
  (forall name, catchable (get_tool_function name)) ->
  (forall name f tick args,
      get_tool_function name = Ok f -> catchable (call_kwargs f tick args)) ->
  chat_completions_create (List.length (requests w)) (model a) (conversation_history a)
  = Ok {| choices := {| message := am; finish_reason := "tool_calls" |} :: others |} ->
  message_tool_calls am = Some (first :: more) ->
  Forall (arguments_parse json_loads) (first :: more) ->
  exists (msgs : list Message) (w' : World),
    iteration json_loads get_tool_function chat_completions_create (a, w)
    = (Ok Continue,
       (set_history a
          (conversation_history a
             ++ {| role := "assistant"; content := message_content am; name := None;
                   tool_call_id := None; tool_calls := Some (first :: more) |}
             :: msgs)%list,
        w'))
    /\ map tool_call_id msgs = map (fun tc => Some (tc_id tc)) (first :: more)
    /\ map name msgs = map (fun tc => Some (tc_function_name tc)) (first :: more)
    /\ Forall (fun m => role m = "tool") msgs
    /\ requests w' = (requests w ++ [conversation_history a])%list.
Proof.
  intros Hresolve Htools Hresp Htcs Hparse.
  destruct (iteration_dispatches json_loads get_tool_function chat_completions_create
              Hresolve Htools a w am others first more Hresp Htcs Hparse)
    as (contents & w' & Eit & Hlen & Hreq).
  exists (tool_messages (first :: more) contents), w'.
  destruct (tool_messages_ids (first :: more) contents Hlen) as (Hid & Hname & Hrole).
  split; [exact Eit |]. repeat split; assumption.
Qed.

(** X11, an instance: two invocations in one answer, the second for a tool
    the toolbox does not have. *)
Lemma an_iteration_answers_every_invocation_in_order_witness :
  exists (msgs : list Message) (w' : World),
    iteration Json.loads (Tools.get_tool_function sample_runtime)
              (fun _ _ _ =>
                 Ok (one_choice None
                       (Some [ function_call "call_1" "get_current_time" "{}";
                               function_call "call_2" "get_stock_price" "{}" ])
                       "tool_calls"))
              (test_agent, fresh_world)
    = (Ok Continue,
       (set_history test_agent
          (conversation_history test_agent
             ++ {| role := "assistant";
                   content :=
                     message_content
                       {| message_content := None;
                          message_tool_calls :=
                            Some [ function_call "call_1" "get_current_time" "{}";
                                   function_call "call_2" "get_stock_price" "{}" ] |};
                   name := None; tool_call_id := None;
                   tool_calls :=
                     Some (function_call "call_1" "get_current_time" "{}"
                             :: [function_call "call_2" "get_stock_price" "{}"]) |}
             :: msgs)%list,
        w'))
    /\ map tool_call_id msgs
       = map (fun tc => Some (tc_id tc))
             (function_call "call_1" "get_current_time" "{}"
                :: [function_call "call_2" "get_stock_price" "{}"])
    /\ map name msgs
       = map (fun tc => Some (tc_function_name tc))
             (function_call "call_1" "get_current_time" "{}"
                :: [function_call "call_2" "get_stock_price" "{}"])
    /\ Forall (fun m => role m = "tool") msgs
    /\ requests w' = (requests fresh_world ++ [conversation_history test_agent])%list.
Proof.
  apply (an_iteration_answers_every_invocation_in_order
           Json.loads (Tools.get_tool_function sample_runtime) _
           test_agent fresh_world _ []).
  - exact (catchable_get_tool_function sample_runtime).
  - intros name f tick args. apply catchable_ToolBox_call.
    + exact sample_runtime_eval.
    + exact sample_runtime_range.
    + exact sample_runtime_inherited.
  - reflexivity.
  - reflexivity.
  - repeat constructor; exists (PDict []); reflexivity.
Defined.

Section Malformed.

Variable json_loads : string -> outcome pyval.
Variable get_tool_function : string -> outcome pyobject.

Hypothesis resolve_catchable : forall name, catchable (get_tool_function name).
Hypothesis tools_catchable :
  forall name f tick args,
    get_tool_function name = Ok f -> catchable (call_kwargs f tick args).


End Malformed.



(** X13.  Arguments that are JSON but not an object (a list, a number, a
    string, [null]) do not end the turn: the call with [**] raises a
    [TypeError] inside the inner [try], and the invocation gets one [tool]
    message with status [error] that names the type that was given. *)
Theorem non_object_arguments_are_reported_with_their_type
        (json_loads : string -> outcome pyval)
        (get_tool_function : string -> outcome pyobject)
        (tool_call : ToolCall) (function_args : pyval) (f : pyobject)
        (a : VoiceAgent) (w : World) :
  json_loads (tc_function_arguments tool_call) = Ok function_args ->
  (forall kw, function_args <> PDict kw) ->
  get_tool_function (tc_function_name tool_call) = Ok f ->
  exists (callee : string) (w' : World),
    execute_tool_call json_loads get_tool_function tool_call (a, w)
    = (Ok tt,
       (set_history a
          (conversation_history a
             ++ [ {| role := "tool";
                     content :=
                       Some (error_content
                               (callee ++ " argument after ** must be a mapping, not "
                                       ++ type_name function_args));
                     name := Some (tc_function_name tool_call);
                     tool_call_id := Some (tc_id tool_call);
                     tool_calls := None |} ])%list,
        w')).
Proof.
  intros Hargs Hnot Hf.
  assert (Hcall : exists callee,
             call_kwargs f (tool_invocations w) function_args
             = Raise (TypeError (callee ++ " argument after ** must be a mapping, not "
                                        ++ type_name function_args))).
  { destruct function_args; simpl; eauto. now destruct (Hnot d). }
  destruct Hcall as (callee & Hcall).
  destruct (inner_try_on_failure get_tool_function tool_call function_args
              (TypeError (callee ++ " argument after ** must be a mapping, not "
                                 ++ type_name function_args)) a w)
    as (w' & Etry & _).
  { right. exists f. auto. }
  { reflexivity. }
  exists callee, w'.
  unfold execute_tool_call. unfold bind at 1. unfold lift at 1. rewrite Hargs.
  unfold bind at 1. rewrite Etry. reflexivity.
Qed.

(** X13, an instance: the weather tool called with a list. *)
Lemma non_object_arguments_are_reported_with_their_type_witness :
  exists (callee : string) (w' : World),
    execute_tool_call Json.loads (Tools.get_tool_function sample_runtime)
                      (function_call "call_3" "get_current_weather" "[1, 2]")
                      (test_agent, fresh_world)
    = (Ok tt,
       (set_history test_agent
          (conversation_history test_agent
             ++ [ {| role := "tool";
                     content :=
                       Some (error_content
                               (callee ++ " argument after ** must be a mapping, not "
                                       ++ type_name (PList [PInt 1; PInt 2])));
                     name := Some "get_current_weather";
                     tool_call_id := Some "call_3";
                     tool_calls := None |} ])%list,
        w')).
Proof.
  apply (non_object_arguments_are_reported_with_their_type
           Json.loads (Tools.get_tool_function sample_runtime)
           (function_call "call_3" "get_current_weather" "[1, 2]")
           (PList [PInt 1; PInt 2])
           (Tools.get_current_weather_fn) test_agent fresh_world).
  - reflexivity.
  - discriminate.
  - reflexivity.
Defined.



(* ===================================================================== *)
(** ** The tools on their arguments *)
(* ===================================================================== *)

(** X15.  Called with an expression, [calculate] returns and does not raise
    as long as [eval] raises nothing outside [Exception]: the result echoes
    the expression, and its status is [success] with the value when the
    evaluation returned, [error] with the message of the exception when it
    raised. *)
Theorem calculate_reports_evaluation_errors
        (rt : Tools.Runtime) (tick : nat) (expression : pyval) :
  catchable (Tools.eval_restricted rt tick expression) ->
  exists result : pyval,
    call_kwargs (Tools.calculate_fn rt) tick (PDict [("expression", expression)])
    = Ok result
    /\ field "expression" result = Some expression
    /\ match Tools.eval_restricted rt tick expression with
       | Ok value =>
           field "status" result = Some (PStr "success")
           /\ field "result" result = Some value
           /\ field "error" result = None
       | Raise e =>
           field "status" result = Some (PStr "error")
           /\ field "error" result = Some (PStr (str_exn e))
           /\ field "result" result = None
       end.
Proof.
  intros Hc. cbn [call_kwargs Tools.calculate_fn].
  cbn [Tools.check_keywords find fst existsb String.eqb Ascii.eqb Bool.eqb orb negb obind
       Tools.keyword dict_get].
  unfold Tools.calculate.
  destruct (Tools.eval_restricted rt tick expression) as [value | e] eqn:Ee.
  - eexists. split; [reflexivity |]. repeat split.
  - cbn [obind otry]. rewrite (Hc e eq_refl). eexists. split; [reflexivity |].
    repeat split.
Qed.

(** X15, an instance: an expression that [eval] rejects. *)
Lemma calculate_reports_evaluation_errors_witness :
  exists result : pyval,
    call_kwargs (Tools.calculate_fn calculating_runtime) 0
                (PDict [("expression", PStr "10 * 5 +")])
    = Ok result
    /\ field "expression" result = Some (PStr "10 * 5 +")
    /\ match Tools.eval_restricted calculating_runtime 0 (PStr "10 * 5 +") with
       | Ok value =>
           field "status" result = Some (PStr "success")
           /\ field "result" result = Some value
           /\ field "error" result = None
       | Raise e =>
           field "status" result = Some (PStr "error")
           /\ field "error" result = Some (PStr (str_exn e))
           /\ field "result" result = None
       end.
Proof.
  apply calculate_reports_evaluation_errors.
  intros e E. vm_compute in E. inversion E. reflexivity.
Defined.

(** [get_current_weather] reports the temperature 22 exactly when the
    unit is the string [celsius]; any other unit, [fahrenheit] or not, a
    string or not, gets 72.  The location and the unit are echoed as given,
    and the status is always [success]. *)
Theorem weather_is_22_only_for_celsius (location unit : pyval) :
  field "status" (Tools.get_current_weather location unit) = Some (PStr "success")
  /\ field "location" (Tools.get_current_weather location unit) = Some location
  /\ field "unit" (Tools.get_current_weather location unit) = Some unit
  /\ (field "temperature" (Tools.get_current_weather location unit) = Some (PInt 22)
      <-> unit = PStr "celsius")
  /\ (field "temperature" (Tools.get_current_weather location unit) = Some (PInt 72)
      <-> unit <> PStr "celsius").
Proof.
  repeat split; cbn [field Tools.get_current_weather dict_get String.eqb Ascii.eqb Bool.eqb].
  - destruct unit as [| b | z | r | s | l | d | t]; simpl; try discriminate.
    destruct (String.eqb s "celsius") eqn:E; [| discriminate].
    apply String.eqb_eq in E. now subst.
  - intros ->. reflexivity.
  - intros H Hu. subst unit. simpl in H. discriminate.
  - intros Hu. destruct unit as [| b | z | r | s | l | d | t]; simpl; try reflexivity.
    destruct (String.eqb s "celsius") eqn:E; [| reflexivity].
    apply String.eqb_eq in E. now subst.
Qed.

Lemma existsb_eqb_In (k : string) (params : list string) :
  In k params -> existsb (String.eqb k) params = true.
Proof.
  intros H. apply existsb_exists. exists k. split; [exact H | apply String.eqb_refl].
Qed.

Lemma check_keywords_accepts (q : string) (params : list string)
      (kw : list (string * pyval)) :
  (forall k, In k (map fst kw) -> In k params) ->
  Tools.check_keywords q params kw = Ok tt.
Proof.
  intros H. unfold Tools.check_keywords.
  assert (E : find (fun p => negb (existsb (String.eqb (fst p)) params)) kw = None).
  { induction kw as [| [k v] rest IH]; [reflexivity |]. simpl.
    rewrite existsb_eqb_In by (apply H; left; reflexivity). simpl.
    apply IH. intros k' Hk'. apply H. right. exact Hk'. }
  rewrite E. reflexivity.
Qed.

Lemma dict_get_present (p : string) (kw : list (string * pyval)) :
  In p (map fst kw) -> exists v, dict_get p kw = Some v.
Proof.
  induction kw as [| [k v] rest IH]; simpl; [tauto |].
  intros [-> | H].
  - rewrite String.eqb_refl. eauto.
  - destruct (String.eqb p k); eauto.
Qed.

Lemma keyword_given (q p : string) (default : option pyval) (kw : list (string * pyval)) :
  In p (map fst kw) -> exists v, Tools.keyword q p default kw = Ok v.
Proof.
  intros H. destruct (dict_get_present p kw H) as (v & E).
  exists v. unfold Tools.keyword. now rewrite E.
Qed.

Lemma keyword_defaulted (q p : string) (d : pyval) (kw : list (string * pyval)) :
  exists v, Tools.keyword q p (Some d) kw = Ok v.
Proof. unfold Tools.keyword. destruct (dict_get p kw); eauto. Qed.

(** X17.  Every tool that [TOOL_SCHEMAS] advertises is resolved by
    [get_tool_function], and keyword arguments that conform to its schema
    (every keyword a property of the schema, every required property given)
    always fit its signature: the call raises no [TypeError] about its
    arguments.  The only exceptions such a call can raise are those of the
    body of [search_web] and of [calculate]; the other three tools return. *)
Theorem schema_conforming_arguments_fit_the_signature
        (rt : Tools.Runtime) (tick : nat) (schema : Tools.ToolSchema)
        (kw : list (string * pyval)) :
  In schema Tools.TOOL_SCHEMAS ->
  conforms schema kw ->
  exists f : pyobject,
    Tools.get_tool_function rt (Tools.function_name schema) = Ok f
    /\ forall e,
         call_kwargs f tick (PDict kw) = Raise e ->
         (Tools.function_name schema = "search_web"
          /\ exists query num_results, Tools.search_web rt query num_results = Raise e)
         \/ (Tools.function_name schema = "calculate"
             /\ exists expression, Tools.calculate rt tick expression = Raise e).
Proof.
  intros Hin [Hkeys Hreq]. simpl in Hin.
  destruct Hin as [<- | [<- | [<- | [<- | [<- | []]]]]];
    cbn [Tools.function_name Tools.properties Tools.required map Tools.param_name]
      in Hkeys, Hreq;
    (eexists; split; [reflexivity |]); intros e;
    cbn [call_kwargs Tools.get_current_time_fn Tools.get_current_weather_fn
         Tools.search_web_fn Tools.get_system_info_fn Tools.calculate_fn];
    rewrite check_keywords_accepts by exact Hkeys; cbn [obind].
  - destruct (keyword_defaulted "ToolBox.get_current_time" "timezone" (PStr "local") kw)
      as (v & ->). simpl. discriminate.
  - destruct (keyword_given "ToolBox.get_current_weather" "location" None kw)
      as (v & ->); [apply Hreq; left; reflexivity |].
    destruct (keyword_defaulted "ToolBox.get_current_weather" "unit" (PStr "celsius") kw)
      as (u & ->). simpl. discriminate.
  - destruct (keyword_given "ToolBox.search_web" "query" None kw)
      as (v & ->); [apply Hreq; left; reflexivity |].
    destruct (keyword_defaulted "ToolBox.search_web" "num_results" (PInt 3) kw)
      as (n & ->). cbn [obind]. intros E. left. split; [reflexivity | eauto].
  - simpl. discriminate.
  - destruct (keyword_given "ToolBox.calculate" "expression" None kw)
      as (v & ->); [apply Hreq; left; reflexivity |].
    cbn [obind]. intros E. right. split; [reflexivity | eauto].
Qed.

(** X17, an instance: the weather tool with its required location only. *)
Lemma schema_conforming_arguments_fit_the_signature_witness :
  exists f : pyobject,
    Tools.get_tool_function sample_runtime
      (Tools.function_name (nth 1 Tools.TOOL_SCHEMAS (nth 0 Tools.TOOL_SCHEMAS
         {| Tools.schema_type := ""; Tools.function_name := "";
            Tools.function_description := ""; Tools.properties := [];
            Tools.required := [] |})))
    = Ok f
    /\ forall e,
         call_kwargs f 0 (PDict [("location", PStr "Paris")]) = Raise e ->
         (Tools.function_name (nth 1 Tools.TOOL_SCHEMAS (nth 0 Tools.TOOL_SCHEMAS
            {| Tools.schema_type := ""; Tools.function_name := "";
               Tools.function_description := ""; Tools.properties := [];
               Tools.required := [] |})) = "search_web"
          /\ exists query num_results,
               Tools.search_web sample_runtime query num_results = Raise e)
         \/ (Tools.function_name (nth 1 Tools.TOOL_SCHEMAS (nth 0 Tools.TOOL_SCHEMAS
               {| Tools.schema_type := ""; Tools.function_name := "";
                  Tools.function_description := ""; Tools.properties := [];
                  Tools.required := [] |})) = "calculate"
             /\ exists expression,
                  Tools.calculate sample_runtime 0 expression = Raise e).
Proof.
  apply schema_conforming_arguments_fit_the_signature.
  - right. left. reflexivity.
  - split; simpl; intros k [<- | []]; auto.
Defined.




(* ===================================================================== *)
(** ** The streaming entry point *)
(* ===================================================================== *)

Lemma string_app_assoc (s t u : string) : ((s ++ t) ++ u = s ++ (t ++ u))%string.
Proof. induction s as [| c s IH]; simpl; [reflexivity | now rewrite IH]. Qed.

Lemma string_app_empty_r (s : string) : (s ++ EmptyString = s)%string.
Proof. induction s as [| c s IH]; simpl; [reflexivity | now rewrite IH]. Qed.

(** Over chunks that all have a choice, the loop yields their texts in order
    and accumulates them. *)
Lemma async_for_delivers (cs : list ChatCompletionChunk) :
  Forall has_choice cs ->
  forall (full_response : string) (st : State),
    async_for cs full_response st
    = ((chunk_texts cs, Ok (full_response ++ joined (chunk_texts cs))), st).
Proof.
  induction 1 as [| chunk rest Hc _ IH]; intros full st.
  - simpl. unfold gret. now rewrite string_app_empty_r.
  - cbn [async_for]. unfold gbind at 1, glift, lift.
    unfold has_choice in Hc. unfold chunk_texts. cbn [flat_map]. unfold chunk_text.
    destruct (chunk_choices chunk) as [| choice others]; [congruence |].
    cbn [index0]. destruct (delta_content (delta choice)) as [[| c s] |];
      cbn [truthy_str str_or app].
    + rewrite IH. reflexivity.
    + unfold gbind, yield. rewrite IH. fold (chunk_texts rest).
      cbn [joined fold_right app]. fold (joined (chunk_texts rest)).
      rewrite string_app_assoc. reflexivity.
    + rewrite IH. reflexivity.
Qed.

(** At a chunk without a choice, [choices[0]] raises after the texts of the
    chunks before it were yielded. *)
Lemma async_for_stops_at_empty_chunk
      (before : list ChatCompletionChunk) (bad : ChatCompletionChunk)
      (after : list ChatCompletionChunk) :
  Forall has_choice before ->
  chunk_choices bad = [] ->
  forall (full_response : string) (st : State),
    async_for (before ++ bad :: after) full_response st
    = ((chunk_texts before, Raise (IndexError "list index out of range")), st).
Proof.
  intros Hbefore Hbad. induction Hbefore as [| chunk rest Hc _ IH]; intros full st.
  - cbn [app async_for]. unfold gbind, glift, lift. rewrite Hbad. reflexivity.
  - cbn [app async_for]. unfold gbind at 1, glift, lift.
    unfold has_choice in Hc. unfold chunk_texts. cbn [flat_map]. unfold chunk_text.
    destruct (chunk_choices chunk) as [| choice others]; [congruence |].
    cbn [index0]. destruct (delta_content (delta choice)) as [[| c s] |];
      cbn [truthy_str str_or app].
    + rewrite IH. reflexivity.
    + unfold gbind, yield. rewrite IH. reflexivity.
    + rewrite IH. reflexivity.
Qed.

(** Whatever the chunks are, the loop yields no empty string, leaves the
    state alone, and raises nothing but the [IndexError] of [choices[0]]. *)
Lemma async_for_yields_no_empty_string (cs : list ChatCompletionChunk) :
  forall (full_response : string) (st : State),
  exists (ys : list string) (r : outcome string),
    async_for cs full_response st = ((ys, r), st)
    /\ Forall (fun y => y <> EmptyString) ys
    /\ catchable r.
Proof.
  induction cs as [| chunk rest IH]; intros full st.
  - exists [], (Ok full). repeat split; [constructor | apply catchable_Ok].
  - cbn [async_for]. unfold gbind at 1, glift, lift.
    destruct (chunk_choices chunk) as [| choice others]; cbn [index0].
    + eexists _, _. split; [reflexivity |]. split; [constructor |].
      apply catchable_Raise_Exception.
    + destruct (delta_content (delta choice)) as [[| c s] |]; cbn [truthy_str str_or].
      * destruct (IH full st) as (ys & r & E & Hys & Hr). rewrite E. eauto.
      * destruct (IH (full ++ String c s) st) as (ys & r & E & Hys & Hr).
        unfold gbind, yield. rewrite E. eexists _, _. split; [reflexivity |].
        split; [| exact Hr]. constructor; [discriminate | exact Hys].
      * destruct (IH full st) as (ys & r & E & Hys & Hr). rewrite E. eauto.
Qed.

(** X18.  When the streamed request succeeds, every chunk has a choice and
    the stream ends normally, the generator yields the texts of the chunks
    in order, skipping the chunks whose text is missing or empty, and then
    records as the assistant message exactly what it yielded, put end to
    end: an empty message when the stream carried no text.  One request is
    sent. *)
Theorem a_stream_is_yielded_and_recorded_whole
        (chat_completions_create_stream : nat -> string -> list Message -> outcome Stream)
        (user_input : string) (a : VoiceAgent) (w : World) (cs : list ChatCompletionChunk) :
  chat_completions_create_stream (List.length (requests w)) (model a)
                                 (conversation_history (after_add a "user" user_input))
  = Ok {| chunks := cs; broken := None |} ->
  Forall has_choice cs ->
  process_user_input_streaming chat_completions_create_stream user_input (a, w)
  = ((chunk_texts cs, Ok tt),
     (after_add (after_add a "user" user_input) "assistant" (joined (chunk_texts cs)),
      sent w (conversation_history (after_add a "user" user_input)))).
Proof.
  intros Hresp Hcs. unfold process_user_input_streaming.
  unfold gbind at 1. unfold glift at 1. rewrite add_message_eq.
  fold (after_add a "user" user_input).
  unfold gtry. unfold gbind at 1. unfold glift at 1. unfold create_stream.
  change (model (after_add a "user" user_input)) with (model a).
  rewrite Hresp. cbn [chunks broken].
  unfold gbind at 1. rewrite (async_for_delivers cs Hcs).
  unfold gbind at 1. unfold gret at 1. unfold glift. rewrite add_message_eq.
  cbn [append]. rewrite !app_nil_r. reflexivity.
Qed.

(** X18, an instance: "It is sunny." in three pieces around an empty chunk. *)
Lemma a_stream_is_yielded_and_recorded_whole_witness :
  process_user_input_streaming (fun _ _ _ => Ok sunny_stream) "How is the weather?"
                               (test_agent, fresh_world)
  = ((chunk_texts (chunks sunny_stream), Ok tt),
     (after_add (after_add test_agent "user" "How is the weather?") "assistant"
                (joined (chunk_texts (chunks sunny_stream))),
      sent fresh_world
           (conversation_history (after_add test_agent "user" "How is the weather?")))).
Proof.
  apply (a_stream_is_yielded_and_recorded_whole
           (fun _ _ _ => Ok sunny_stream) "How is the weather?"
           test_agent fresh_world (chunks sunny_stream)).
  - reflexivity.
  - repeat constructor; discriminate.
Defined.

(** X19.  When a streamed request fails with an exception that
    [except Exception] handles (the request raises, a chunk arrives without a
    choice, or the stream breaks after its last chunk), the generator has
    yielded the text delivered before the failure, then yields the sentence
    "I'm sorry, I encountered an error." and ends normally; no assistant
    message is recorded, so the history ends with the user message. *)
Theorem a_failed_stream_records_no_answer
        (chat_completions_create_stream : nat -> string -> list Message -> outcome Stream)
        (user_input : string) (a : VoiceAgent) (w : World) (delivered : list string) :
  fails_after
    (chat_completions_create_stream (List.length (requests w)) (model a)
       (conversation_history (after_add a "user" user_input)))
    delivered ->
  process_user_input_streaming chat_completions_create_stream user_input (a, w)
  = ((delivered ++ ["I'm sorry, I encountered an error."], Ok tt)%list,
     (after_add a "user" user_input,
      sent w (conversation_history (after_add a "user" user_input)))).
Proof.
  intros Hfail. unfold process_user_input_streaming.
  unfold gbind at 1. unfold glift at 1. rewrite add_message_eq.
  fold (after_add a "user" user_input).
  unfold gtry. unfold gbind at 1. unfold glift at 1. unfold create_stream.
  change (model (after_add a "user" user_input)) with (model a).
  remember (chat_completions_create_stream (List.length (requests w)) (model a)
              (conversation_history (after_add a "user" user_input))) as response
    eqn:Hresponse in *.
  clear Hresponse.
  destruct Hfail as [e He | before bad after eos Hbefore Hbad | cs e Hcs He].
  - rewrite He. reflexivity.
  - cbn [chunks broken]. unfold gbind at 1.
    rewrite (async_for_stops_at_empty_chunk before bad after Hbefore Hbad).
    cbn [is_Exception IndexError]. unfold yield, sent. reflexivity.
  - cbn [chunks broken]. unfold gbind at 1.
    rewrite (async_for_delivers cs Hcs).
    unfold gbind at 1. unfold glift at 1. unfold lift.
    rewrite He. unfold yield, sent. rewrite !app_nil_r. reflexivity.
Qed.

(** X19, an instance: the connection drops after "It is ". *)
Lemma a_failed_stream_records_no_answer_witness :
  process_user_input_streaming (fun _ _ _ => Ok cut_stream) "How is the weather?"
                               (test_agent, fresh_world)
  = ((chunk_texts (chunks cut_stream) ++ ["I'm sorry, I encountered an error."],
      Ok tt)%list,
     (after_add test_agent "user" "How is the weather?",
      sent fresh_world
           (conversation_history (after_add test_agent "user" "How is the weather?")))).
Proof.
  apply (a_failed_stream_records_no_answer
           (fun _ _ _ => Ok cut_stream) "How is the weather?" test_agent fresh_world
           (chunk_texts (chunks cut_stream))).
  apply (@stream_breaks (chunks cut_stream)
                       (Exception "APIConnectionError" "Connection error.")).
  - repeat constructor; discriminate.
  - reflexivity.
Defined.

(** The shape of every fully iterated streamed turn: one request, no empty
    string among the yields, and an agent that recorded the user message and
    at most one assistant message after it. *)
Lemma streamed_turn_shape
      (chat_completions_create_stream : nat -> string -> list Message -> outcome Stream)
      (user_input : string) (a : VoiceAgent) (w : World) :
  exists (ys : list string) (r : outcome unit) (a' : VoiceAgent),
    process_user_input_streaming chat_completions_create_stream user_input (a, w)
    = ((ys, r), (a', sent w (conversation_history (after_add a "user" user_input))))
    /\ Forall (fun y => y <> EmptyString) ys
    /\ (a' = after_add a "user" user_input
        \/ exists text,
             a' = after_add (after_add a "user" user_input) "assistant" text).
Proof.
  assert (Hsorry : forall ys, Forall (fun y => y <> EmptyString) ys ->
                              Forall (fun y => y <> EmptyString)
                                     (ys ++ [streaming_error])%list).
  { intros ys Hys. apply Forall_app. split; [exact Hys |].
    constructor; [discriminate | constructor]. }
  unfold process_user_input_streaming.
  unfold gbind at 1. unfold glift at 1. rewrite add_message_eq.
  fold (after_add a "user" user_input).
  unfold gtry. unfold gbind at 1. unfold glift at 1. unfold create_stream.
  fold (sent w (conversation_history (after_add a "user" user_input))).
  destruct (chat_completions_create_stream _ _ _) as [stream | e].
  - unfold gbind at 1.
    destruct (async_for_yields_no_empty_string (chunks stream) EmptyString
                (after_add a "user" user_input,
                 sent w (conversation_history (after_add a "user" user_input))))
      as (ys & r & E & Hys & Hr).
    rewrite E. destruct r as [full | e].
    + unfold gbind at 1. destruct (broken stream) as [e |].
      * unfold glift, lift. destruct (is_Exception e); unfold yield;
          cbn [app]; rewrite ?app_nil_r; eexists _, _, _;
          (split; [reflexivity |]); (split; [| now left]); auto.
      * unfold gret. unfold glift. rewrite add_message_eq. cbn [app].
        rewrite ?app_nil_r.
        fold (after_add (after_add a "user" user_input) "assistant" full).
        eexists _, _, _. split; [reflexivity |]. split; [exact Hys |].
        right. now exists full.
    + rewrite (Hr e eq_refl). unfold yield. cbn [app].
      eexists _, _, _. split; [reflexivity |]. split; [| now left]. auto.
  - destruct (is_Exception e); unfold yield; cbn [app];
      eexists _, _, _; (split; [reflexivity |]); (split; [| now left]).
    + constructor; [discriminate | constructor].
    + constructor.
Qed.

(** X20.  Whatever the streaming backend does, one call of
    [process_user_input_streaming] that is iterated to its end sends exactly
    one request, never yields an empty string, keeps the settings of the
    agent, and keeps the first entry of the history in first position. *)
Theorem a_streamed_turn_sends_one_request_and_no_empty_chunk
        (chat_completions_create_stream : nat -> string -> list Message -> outcome Stream)
        (user_input : string) (a : VoiceAgent) (w : World) :
  let run := process_user_input_streaming chat_completions_create_stream
               user_input (a, w) in
  Forall (fun y => y <> EmptyString) (fst (fst run))
  /\ requests (snd (snd run))
     = (requests w ++ [conversation_history (after_add a "user" user_input)])%list
  /\ same_settings a (fst (snd run))
  /\ pinned (conversation_history a) (conversation_history (fst (snd run))).
Proof.
  intros run. subst run.
  destruct (streamed_turn_shape chat_completions_create_stream user_input a w)
    as (ys & r & a' & E & Hys & Ha').
  rewrite E. cbn [fst snd sent requests].
  assert (Hpin : pinned (conversation_history a)
                        (conversation_history (after_add a "user" user_input))).
  { intros first rest Hh. unfold after_add. cbn [conversation_history set_history].
    rewrite Hh. apply trimmed_head. }
  split; [exact Hys |]. split; [reflexivity |].
  destruct Ha' as [-> | (text & ->)].
  - split; [repeat split | exact Hpin].
  - split; [repeat split |].
    intros first rest Hh. destruct (Hpin first rest Hh) as (r1 & E1).
    unfold after_add at 1. cbn [conversation_history set_history].
    rewrite E1. apply trimmed_head.
Qed.
